(** * Settings normalisation of the [nautobot-server] command

    A shallow embedding of [_configure_settings] from
    [nautobot/core/cli.py]: the callback that [run_app] invokes once
    the default settings and the user's configuration file have been
    merged.  The callback walks through a fixed sequence of statements
    that read and mutate the settings object, touch the file system,
    import an optional package and may raise [ImproperlyConfigured].

    Python evaluates those statements against a mutable world, and an
    exception does not roll back what earlier statements already wrote.
    The embedding therefore threads a [World] through every statement and
    returns it next to the outcome, also when the outcome is an exception. *)

From stdpp Require Import base strings list gmap sorting.
From Stdlib Require Import ZArith Lia.

Local Open Scope Z_scope.

(** ** Python string primitives *)

Module PyStr.

(** [sub in s] for two [str] values: some suffix of [s] starts with [sub]. *)
Fixpoint contains (sub s : string) : bool :=
  String.prefix sub s ||
  match s with
  | EmptyString => false
  | String _ s' => contains sub s'
  end.

(** [s.startswith(pre)] *)
Definition startswith (s pre : string) : bool := String.prefix pre s.

(** [s.endswith(suf)], read off the reversed strings. *)
Definition endswith (s suf : string) : bool :=
  String.prefix (String.rev suf) (String.rev s).

(** Truth value of a [str]: only the empty string is false. *)
Definition truthy (s : string) : bool :=
  match s with
  | EmptyString => false
  | String _ _ => true
  end.

(** [os.path.join(a, b)] of [posixpath]. *)
Definition os_path_join (a b : string) : string :=
  if startswith b "/" then b
  else if negb (truthy a) || endswith a "/" then a +:+ b
  else a +:+ "/" +:+ b.

End PyStr.

(** ** Exceptions and outcomes *)

Inductive exn : Type :=
| ImproperlyConfigured (msg : string)
| ValidationError (msg : string)
| ModuleNotFoundError (name : string)
| KeyError (key : string)
| OtherError (descr : string).

Inductive Result (A : Type) : Type :=
| Ok (a : A)
| Raise (e : exn).

Arguments Ok {A} a.
Arguments Raise {A} e.

(** ** The import system, as far as [import storages.utils] sees it *)

Inductive import_status : Type :=
| Importable
| NotFound
| ImportRaises (e : exn).

Definition import_one (env : string → import_status) (name : string) : Result unit :=
  match env name with
  | Importable => Ok tt
  | NotFound => Raise (ModuleNotFoundError name)
  | ImportRaises e => Raise e
  end.

(** A dotted import loads the parent package first; the [name] attribute of
    the [ModuleNotFoundError] is the first module that could not be found. *)
Definition import_storages_utils (env : string → import_status) : Result unit :=
  match import_one env "storages" with
  | Ok _ => import_one env "storages.utils"
  | Raise e => Raise e
  end.

(** Which function [storages.utils.setting] is bound to. *)
Inductive setting_impl : Type :=
| StoragesOwnSetting
| NautobotSetting.

(** ** Django's [URLValidator]

    [URLValidator.__init__(self, schemes=None, **kwargs)] stores its first
    positional argument as the accepted schemes ([None] keeps the default
    of the class) and validates nothing; validation happens in [__call__],
    whose verdict on a value is the parameter [well_formed]. *)

Record URLValidator : Type := mkURLValidator {
  schemes : option string
}.

Definition URLValidator_init (schemes : option string) : Result URLValidator :=
  Ok (mkURLValidator schemes).

Definition URLValidator_call (well_formed : string → bool)
    (v : URLValidator) (value : string) : Result unit :=
  if well_formed value then Ok tt
  else Raise (ValidationError "Enter a valid URL.").

(** ** Constants of the module *)

Definition REQUIRED_BACKEND : string :=
  "nautobot.core.authentication.ObjectPermissionBackend".

Definition PROMETHEUS_ENGINE : string :=
  "django_prometheus.db.backends.postgresql".

Definition MSG_BACKEND : string :=
  "nautobot.core.authentication.ObjectPermissionBackend must be defined in 'AUTHENTICATION_BACKENDS'".

Definition MSG_URL : string :=
  "RELEASE_CHECK_URL must be a valid API URL. Example: https://api.github.com/repos/nautobot/nautobot".

Definition MSG_TIMEOUT : string :=
  "RELEASE_CHECK_TIMEOUT has to be at least 3600 seconds (1 hour)".

Definition MSG_STORAGES (backend : string) : string :=
  "STORAGE_BACKEND is set to " +:+ backend +:+
  " but django-storages is not present. It can be installed by running 'pip install django-storages'.".

Definition MSG_STORAGE_CONFIG : string :=
  "STORAGE_CONFIG has been set in settings but STORAGE_BACKEND is not defined. STORAGE_CONFIG will be ignored.".

(** [sorted] on a list of [int]s. *)
Definition sorted (l : list Z) : list Z := merge_sort Z.le l.

(** ** The operating system *)

Class OS (FS : Type) : Type := {
  os_path_exists : string → FS → bool;
  os_makedirs : string → FS → Result unit * FS;
  Path_touch : string → FS → Result unit * FS
}.

(** What the directory step relies on: a path that was just created exists,
    and creating one path does not remove another. *)
Class OSLaws (FS : Type) `{!OS FS} : Prop := {
  makedirs_creates p f f' :
    os_makedirs p f = (Ok tt, f') → os_path_exists p f' = true;
  makedirs_keeps p q f f' :
    os_makedirs p f = (Ok tt, f') → os_path_exists q f = true →
    os_path_exists q f' = true;
  touch_creates p f f' :
    Path_touch p f = (Ok tt, f') → os_path_exists p f' = true;
  touch_keeps p q f f' :
    Path_touch p f = (Ok tt, f') → os_path_exists q f = true →
    os_path_exists q f' = true
}.

Section Model.

(** [PyObj] stands for the values this module only passes along. *)
Context {PyObj FS : Type}.

(** The six objects handed to [load_plugins]; all but the version string are
    mutable and shared with the settings object. *)
Record PluginArgs : Type := mkPluginArgs {
  pl_plugins : list string;
  pl_installed_apps : list string;
  pl_plugins_config : PyObj;
  pl_version : string;
  pl_middleware : list string;
  pl_cacheops : PyObj
}.

(** The attributes of the settings object that the callback reads or writes.
    [None] in [RELEASE_CHECK_URL] and [STORAGE_BACKEND] is Python's [None];
    [SETTINGS_PATH] is [None] until the callback sets the attribute. *)
Record Settings := mkSettings {
  SETTINGS_PATH : option string;
  GIT_ROOT : string;
  JOBS_ROOT : string;
  MEDIA_ROOT : string;
  STATIC_ROOT : string;
  METRICS_ENABLED : bool;
  DATABASES : gmap string (gmap string string);
  PAGINATE_COUNT : Z;
  PER_PAGE_DEFAULTS : list Z;
  AUTHENTICATION_BACKENDS : list string;
  RELEASE_CHECK_URL : option string;
  RELEASE_CHECK_TIMEOUT : Z;
  STORAGE_BACKEND : option string;
  DEFAULT_FILE_STORAGE : string;
  STORAGE_CONFIG : gmap string PyObj;
  SOCIAL_AUTH_ENABLED : bool;
  SOCIAL_AUTH_MODULE : string;
  INSTALLED_APPS : list string;
  BASE_PATH : string;
  LOGIN_URL : string;
  PLUGINS : list string;
  PLUGINS_CONFIG : PyObj;
  VERSION : string;
  MIDDLEWARE : list string;
  CACHEOPS : PyObj
}.

Definition set_SETTINGS_PATH (v : string) (s : Settings) : Settings :=
  {| SETTINGS_PATH := Some v; GIT_ROOT := GIT_ROOT s; JOBS_ROOT := JOBS_ROOT s;
     MEDIA_ROOT := MEDIA_ROOT s; STATIC_ROOT := STATIC_ROOT s;
     METRICS_ENABLED := METRICS_ENABLED s; DATABASES := DATABASES s;
     PAGINATE_COUNT := PAGINATE_COUNT s; PER_PAGE_DEFAULTS := PER_PAGE_DEFAULTS s;
     AUTHENTICATION_BACKENDS := AUTHENTICATION_BACKENDS s;
     RELEASE_CHECK_URL := RELEASE_CHECK_URL s;
     RELEASE_CHECK_TIMEOUT := RELEASE_CHECK_TIMEOUT s;
     STORAGE_BACKEND := STORAGE_BACKEND s;
     DEFAULT_FILE_STORAGE := DEFAULT_FILE_STORAGE s; STORAGE_CONFIG := STORAGE_CONFIG s;
     SOCIAL_AUTH_ENABLED := SOCIAL_AUTH_ENABLED s;
     SOCIAL_AUTH_MODULE := SOCIAL_AUTH_MODULE s; INSTALLED_APPS := INSTALLED_APPS s;
     BASE_PATH := BASE_PATH s; LOGIN_URL := LOGIN_URL s; PLUGINS := PLUGINS s;
     PLUGINS_CONFIG := PLUGINS_CONFIG s; VERSION := VERSION s;
     MIDDLEWARE := MIDDLEWARE s; CACHEOPS := CACHEOPS s |}.

Definition set_DATABASES (v : gmap string (gmap string string)) (s : Settings) : Settings :=
  {| SETTINGS_PATH := SETTINGS_PATH s; GIT_ROOT := GIT_ROOT s; JOBS_ROOT := JOBS_ROOT s;
     MEDIA_ROOT := MEDIA_ROOT s; STATIC_ROOT := STATIC_ROOT s;
     METRICS_ENABLED := METRICS_ENABLED s; DATABASES := v;
     PAGINATE_COUNT := PAGINATE_COUNT s; PER_PAGE_DEFAULTS := PER_PAGE_DEFAULTS s;
     AUTHENTICATION_BACKENDS := AUTHENTICATION_BACKENDS s;
     RELEASE_CHECK_URL := RELEASE_CHECK_URL s;
     RELEASE_CHECK_TIMEOUT := RELEASE_CHECK_TIMEOUT s;
     STORAGE_BACKEND := STORAGE_BACKEND s;
     DEFAULT_FILE_STORAGE := DEFAULT_FILE_STORAGE s; STORAGE_CONFIG := STORAGE_CONFIG s;
     SOCIAL_AUTH_ENABLED := SOCIAL_AUTH_ENABLED s;
     SOCIAL_AUTH_MODULE := SOCIAL_AUTH_MODULE s; INSTALLED_APPS := INSTALLED_APPS s;
     BASE_PATH := BASE_PATH s; LOGIN_URL := LOGIN_URL s; PLUGINS := PLUGINS s;
     PLUGINS_CONFIG := PLUGINS_CONFIG s; VERSION := VERSION s;
     MIDDLEWARE := MIDDLEWARE s; CACHEOPS := CACHEOPS s |}.

Definition set_PER_PAGE_DEFAULTS (v : list Z) (s : Settings) : Settings :=
  {| SETTINGS_PATH := SETTINGS_PATH s; GIT_ROOT := GIT_ROOT s; JOBS_ROOT := JOBS_ROOT s;
     MEDIA_ROOT := MEDIA_ROOT s; STATIC_ROOT := STATIC_ROOT s;
     METRICS_ENABLED := METRICS_ENABLED s; DATABASES := DATABASES s;
     PAGINATE_COUNT := PAGINATE_COUNT s; PER_PAGE_DEFAULTS := v;
     AUTHENTICATION_BACKENDS := AUTHENTICATION_BACKENDS s;
     RELEASE_CHECK_URL := RELEASE_CHECK_URL s;
     RELEASE_CHECK_TIMEOUT := RELEASE_CHECK_TIMEOUT s;
     STORAGE_BACKEND := STORAGE_BACKEND s;
     DEFAULT_FILE_STORAGE := DEFAULT_FILE_STORAGE s; STORAGE_CONFIG := STORAGE_CONFIG s;
     SOCIAL_AUTH_ENABLED := SOCIAL_AUTH_ENABLED s;
     SOCIAL_AUTH_MODULE := SOCIAL_AUTH_MODULE s; INSTALLED_APPS := INSTALLED_APPS s;
     BASE_PATH := BASE_PATH s; LOGIN_URL := LOGIN_URL s; PLUGINS := PLUGINS s;
     PLUGINS_CONFIG := PLUGINS_CONFIG s; VERSION := VERSION s;
     MIDDLEWARE := MIDDLEWARE s; CACHEOPS := CACHEOPS s |}.

Definition set_AUTHENTICATION_BACKENDS (v : list string) (s : Settings) : Settings :=
  {| SETTINGS_PATH := SETTINGS_PATH s; GIT_ROOT := GIT_ROOT s; JOBS_ROOT := JOBS_ROOT s;
     MEDIA_ROOT := MEDIA_ROOT s; STATIC_ROOT := STATIC_ROOT s;
     METRICS_ENABLED := METRICS_ENABLED s; DATABASES := DATABASES s;
     PAGINATE_COUNT := PAGINATE_COUNT s; PER_PAGE_DEFAULTS := PER_PAGE_DEFAULTS s;
     AUTHENTICATION_BACKENDS := v; RELEASE_CHECK_URL := RELEASE_CHECK_URL s;
     RELEASE_CHECK_TIMEOUT := RELEASE_CHECK_TIMEOUT s;
     STORAGE_BACKEND := STORAGE_BACKEND s;
     DEFAULT_FILE_STORAGE := DEFAULT_FILE_STORAGE s; STORAGE_CONFIG := STORAGE_CONFIG s;
     SOCIAL_AUTH_ENABLED := SOCIAL_AUTH_ENABLED s;
     SOCIAL_AUTH_MODULE := SOCIAL_AUTH_MODULE s; INSTALLED_APPS := INSTALLED_APPS s;
     BASE_PATH := BASE_PATH s; LOGIN_URL := LOGIN_URL s; PLUGINS := PLUGINS s;
     PLUGINS_CONFIG := PLUGINS_CONFIG s; VERSION := VERSION s;
     MIDDLEWARE := MIDDLEWARE s; CACHEOPS := CACHEOPS s |}.

Definition set_DEFAULT_FILE_STORAGE (v : string) (s : Settings) : Settings :=
  {| SETTINGS_PATH := SETTINGS_PATH s; GIT_ROOT := GIT_ROOT s; JOBS_ROOT := JOBS_ROOT s;
     MEDIA_ROOT := MEDIA_ROOT s; STATIC_ROOT := STATIC_ROOT s;
     METRICS_ENABLED := METRICS_ENABLED s; DATABASES := DATABASES s;
     PAGINATE_COUNT := PAGINATE_COUNT s; PER_PAGE_DEFAULTS := PER_PAGE_DEFAULTS s;
     AUTHENTICATION_BACKENDS := AUTHENTICATION_BACKENDS s;
     RELEASE_CHECK_URL := RELEASE_CHECK_URL s;
     RELEASE_CHECK_TIMEOUT := RELEASE_CHECK_TIMEOUT s;
     STORAGE_BACKEND := STORAGE_BACKEND s; DEFAULT_FILE_STORAGE := v;
     STORAGE_CONFIG := STORAGE_CONFIG s; SOCIAL_AUTH_ENABLED := SOCIAL_AUTH_ENABLED s;
     SOCIAL_AUTH_MODULE := SOCIAL_AUTH_MODULE s; INSTALLED_APPS := INSTALLED_APPS s;
     BASE_PATH := BASE_PATH s; LOGIN_URL := LOGIN_URL s; PLUGINS := PLUGINS s;
     PLUGINS_CONFIG := PLUGINS_CONFIG s; VERSION := VERSION s;
     MIDDLEWARE := MIDDLEWARE s; CACHEOPS := CACHEOPS s |}.

Definition set_INSTALLED_APPS (v : list string) (s : Settings) : Settings :=
  {| SETTINGS_PATH := SETTINGS_PATH s; GIT_ROOT := GIT_ROOT s; JOBS_ROOT := JOBS_ROOT s;
     MEDIA_ROOT := MEDIA_ROOT s; STATIC_ROOT := STATIC_ROOT s;
     METRICS_ENABLED := METRICS_ENABLED s; DATABASES := DATABASES s;
     PAGINATE_COUNT := PAGINATE_COUNT s; PER_PAGE_DEFAULTS := PER_PAGE_DEFAULTS s;
     AUTHENTICATION_BACKENDS := AUTHENTICATION_BACKENDS s;
     RELEASE_CHECK_URL := RELEASE_CHECK_URL s;
     RELEASE_CHECK_TIMEOUT := RELEASE_CHECK_TIMEOUT s;
     STORAGE_BACKEND := STORAGE_BACKEND s;
     DEFAULT_FILE_STORAGE := DEFAULT_FILE_STORAGE s; STORAGE_CONFIG := STORAGE_CONFIG s;
     SOCIAL_AUTH_ENABLED := SOCIAL_AUTH_ENABLED s;
     SOCIAL_AUTH_MODULE := SOCIAL_AUTH_MODULE s; INSTALLED_APPS := v;
     BASE_PATH := BASE_PATH s; LOGIN_URL := LOGIN_URL s; PLUGINS := PLUGINS s;
     PLUGINS_CONFIG := PLUGINS_CONFIG s; VERSION := VERSION s;
     MIDDLEWARE := MIDDLEWARE s; CACHEOPS := CACHEOPS s |}.

Definition set_LOGIN_URL (v : string) (s : Settings) : Settings :=
  {| SETTINGS_PATH := SETTINGS_PATH s; GIT_ROOT := GIT_ROOT s; JOBS_ROOT := JOBS_ROOT s;
     MEDIA_ROOT := MEDIA_ROOT s; STATIC_ROOT := STATIC_ROOT s;
     METRICS_ENABLED := METRICS_ENABLED s; DATABASES := DATABASES s;
     PAGINATE_COUNT := PAGINATE_COUNT s; PER_PAGE_DEFAULTS := PER_PAGE_DEFAULTS s;
     AUTHENTICATION_BACKENDS := AUTHENTICATION_BACKENDS s;
     RELEASE_CHECK_URL := RELEASE_CHECK_URL s;
     RELEASE_CHECK_TIMEOUT := RELEASE_CHECK_TIMEOUT s;
     STORAGE_BACKEND := STORAGE_BACKEND s;
     DEFAULT_FILE_STORAGE := DEFAULT_FILE_STORAGE s; STORAGE_CONFIG := STORAGE_CONFIG s;
     SOCIAL_AUTH_ENABLED := SOCIAL_AUTH_ENABLED s;
     SOCIAL_AUTH_MODULE := SOCIAL_AUTH_MODULE s; INSTALLED_APPS := INSTALLED_APPS s;
     BASE_PATH := BASE_PATH s; LOGIN_URL := v; PLUGINS := PLUGINS s;
     PLUGINS_CONFIG := PLUGINS_CONFIG s; VERSION := VERSION s;
     MIDDLEWARE := MIDDLEWARE s; CACHEOPS := CACHEOPS s |}.

Definition set_plugin_objects (a : PluginArgs) (s : Settings) : Settings :=
  {| SETTINGS_PATH := SETTINGS_PATH s; GIT_ROOT := GIT_ROOT s; JOBS_ROOT := JOBS_ROOT s;
     MEDIA_ROOT := MEDIA_ROOT s; STATIC_ROOT := STATIC_ROOT s;
     METRICS_ENABLED := METRICS_ENABLED s; DATABASES := DATABASES s;
     PAGINATE_COUNT := PAGINATE_COUNT s; PER_PAGE_DEFAULTS := PER_PAGE_DEFAULTS s;
     AUTHENTICATION_BACKENDS := AUTHENTICATION_BACKENDS s;
     RELEASE_CHECK_URL := RELEASE_CHECK_URL s;
     RELEASE_CHECK_TIMEOUT := RELEASE_CHECK_TIMEOUT s;
     STORAGE_BACKEND := STORAGE_BACKEND s;
     DEFAULT_FILE_STORAGE := DEFAULT_FILE_STORAGE s; STORAGE_CONFIG := STORAGE_CONFIG s;
     SOCIAL_AUTH_ENABLED := SOCIAL_AUTH_ENABLED s;
     SOCIAL_AUTH_MODULE := SOCIAL_AUTH_MODULE s; INSTALLED_APPS := pl_installed_apps a;
     BASE_PATH := BASE_PATH s; LOGIN_URL := LOGIN_URL s; PLUGINS := pl_plugins a;
     PLUGINS_CONFIG := pl_plugins_config a; VERSION := VERSION s;
     MIDDLEWARE := pl_middleware a; CACHEOPS := pl_cacheops a |}.

(** ** The world the callback runs in *)

Record World : Type := mkWorld {
  settings : Settings;
  fs : FS;
  import_env : string → import_status;
  storages_utils_setting : setting_impl;
  warnings_log : list string
}.

Definition with_settings (s : Settings) (w : World) : World :=
  {| settings := s; fs := fs w; import_env := import_env w;
     storages_utils_setting := storages_utils_setting w;
     warnings_log := warnings_log w |}.

Definition with_import_env (env : string → import_status) (w : World) : World :=
  {| settings := settings w; fs := fs w; import_env := env;
     storages_utils_setting := storages_utils_setting w;
     warnings_log := warnings_log w |}.

Definition with_fs (f : FS) (w : World) : World :=
  {| settings := settings w; fs := f; import_env := import_env w;
     storages_utils_setting := storages_utils_setting w;
     warnings_log := warnings_log w |}.

Definition with_storages_utils_setting (i : setting_impl) (w : World) : World :=
  {| settings := settings w; fs := fs w; import_env := import_env w;
     storages_utils_setting := i; warnings_log := warnings_log w |}.

Definition with_warning (msg : string) (w : World) : World :=
  {| settings := settings w; fs := fs w; import_env := import_env w;
     storages_utils_setting := storages_utils_setting w;
     warnings_log := warnings_log w ++ [msg] |}.

(** ** Statements: state passing with exceptions *)

Definition M (A : Type) : Type := World → Result A * World.

Definition ret {A} (a : A) : M A := λ w, (Ok a, w).

Definition raise {A} (e : exn) : M A := λ w, (Raise e, w).

Definition bind {A B} (m : M A) (k : A → M B) : M B :=
  λ w, match m w with
       | (Ok a, w') => k a w'
       | (Raise e, w') => (Raise e, w')
       end.

Definition lift {A} (r : Result A) : M A := λ w, (r, w).

Definition get_settings : M Settings := λ w, (Ok (settings w), w).

Definition modify_settings (f : Settings → Settings) : M unit :=
  λ w, (Ok tt, with_settings (f (settings w)) w).

(** [try: m except ...: handler]; a handler answering [None] does not match
    the exception, which then propagates. *)
Definition try_except {A} (m : M A) (handler : exn → option (M A)) : M A :=
  λ w, match m w with
       | (Ok a, w') => (Ok a, w')
       | (Raise e, w') =>
           match handler e with
           | Some h => h w'
           | None => (Raise e, w')
           end
       end.

End Model.

Arguments PluginArgs : clear implicits.
Arguments Settings : clear implicits.
Arguments World : clear implicits.

Notation "x <- m ;; k" := (bind m (λ x, k))
  (at level 100, m at next level, right associativity, only parsing).
Notation "m ;;; k" := (bind m (λ _, k))
  (at level 100, right associativity, only parsing).

(** ** Collaborators from [nautobot.extras.plugins.utils]

    The two functions are imported, not defined, by this module, so they are
    parameters here.  [get_sso_backend_name] resolves a backend module to its
    name and may raise; [load_plugins] mutates the objects it is handed and
    may raise after having mutated some of them. *)

Class PluginUtils (PyObj : Type) : Type := {
  get_sso_backend_name : string → Result string;
  load_plugins : PluginArgs PyObj → Result unit * PluginArgs PyObj
}.

Section Steps.

Context {PyObj FS : Type} `{!OS FS} `{!PluginUtils PyObj}.

Local Abbreviation M := (@M PyObj FS).

(** [d[key]] on a [dict] with [str] keys. *)
Definition getitem {V} (d : gmap string V) (key : string) : M V :=
  match d !! key with
  | Some v => ret v
  | None => raise (KeyError key)
  end.

(** [warnings.warn(msg)] under the default filters. *)
Definition warnings_warn (msg : string) : M unit :=
  λ w, (Ok tt, with_warning msg w).

(** [if not os.path.exists(p): os.makedirs(p)] *)
Definition ensure_dir (p : string) : M unit :=
  λ w, if os_path_exists p (fs w) then (Ok tt, w)
       else let '(r, f) := os_makedirs p (fs w) in (r, with_fs f w).

(** [if not os.path.exists(p): Path(p).touch()] *)
Definition ensure_file (p : string) : M unit :=
  λ w, if os_path_exists p (fs w) then (Ok tt, w)
       else let '(r, f) := Path_touch p (fs w) in (r, with_fs f w).

(** *** Storage directories (lines 113-126) *)

Definition storage_directories : M unit :=
  s <- get_settings ;;
  ensure_dir (GIT_ROOT s) ;;;
  ensure_dir (JOBS_ROOT s) ;;;
  ensure_file (PyStr.os_path_join (JOBS_ROOT s) "__init__.py") ;;;
  ensure_dir (MEDIA_ROOT s) ;;;
  ensure_dir (PyStr.os_path_join (MEDIA_ROOT s) "devicetype-images") ;;;
  ensure_dir (PyStr.os_path_join (MEDIA_ROOT s) "image-attachments") ;;;
  ensure_dir (STATIC_ROOT s).

(** *** Databases (lines 134-135)

    [and] short-circuits: with metrics disabled the nested lookup is not
    evaluated and cannot raise [KeyError]. *)

Definition databases : M unit :=
  s <- get_settings ;;
  if METRICS_ENABLED s then
    default <- getitem (DATABASES s) "default" ;;
    engine <- getitem default "ENGINE" ;;
    if PyStr.contains "postgres" engine then
      modify_settings
        (set_DATABASES (<["default" := <["ENGINE" := PROMETHEUS_ENGINE]> default]> (DATABASES s)))
    else ret tt
  else ret tt.

(** *** Pagination (lines 141-143) *)

Definition pagination : M unit :=
  s <- get_settings ;;
  if bool_decide (PAGINATE_COUNT s ∈ PER_PAGE_DEFAULTS s) then ret tt
  else
    modify_settings (λ s, set_PER_PAGE_DEFAULTS (PER_PAGE_DEFAULTS s ++ [PAGINATE_COUNT s]) s) ;;;
    modify_settings (λ s, set_PER_PAGE_DEFAULTS (sorted (PER_PAGE_DEFAULTS s)) s).

(** *** Authentication (lines 152-155) *)

Definition authentication : M unit :=
  s <- get_settings ;;
  if bool_decide (REQUIRED_BACKEND ∈ AUTHENTICATION_BACKENDS s) then ret tt
  else raise (ImproperlyConfigured MSG_BACKEND).

(** *** Releases (lines 162-173)

    The [try] block constructs a [URLValidator] from the setting; the
    validator object is dropped. *)

Definition url_handler (e : exn) : option (M unit) :=
  match e with
  | ValidationError _ => Some (raise (ImproperlyConfigured MSG_URL))
  | _ => None
  end.

Definition release_check_url : M unit :=
  s <- get_settings ;;
  match RELEASE_CHECK_URL s with
  | Some url =>
      if PyStr.truthy url then
        try_except
          (_ <- lift (URLValidator_init (Some url)) ;; ret tt)
          url_handler
      else ret tt
  | None => ret tt
  end.

Definition release_check_timeout : M unit :=
  s <- get_settings ;;
  if RELEASE_CHECK_TIMEOUT s <? 3600 then raise (ImproperlyConfigured MSG_TIMEOUT)
  else ret tt.

(** *** Media storage (lines 179-207) *)

Definition storages_handler (backend : string) (e : exn) : option (M unit) :=
  match e with
  | ModuleNotFoundError name =>
      Some (if String.eqb name "storages"
            then raise (ImproperlyConfigured (MSG_STORAGES backend))
            else raise e)
  | _ => None
  end.

Definition media_storage : M unit :=
  s <- get_settings ;;
  match STORAGE_BACKEND s with
  | Some backend =>
      modify_settings (set_DEFAULT_FILE_STORAGE backend) ;;;
      if PyStr.startswith backend "storages." then
        try_except
          (λ w, (import_storages_utils (import_env w), w))
          (storages_handler backend) ;;;
        (λ w, (Ok tt, with_storages_utils_setting NautobotSetting w))
      else ret tt
  | None => ret tt
  end.

(** The function that the monkey-patch installs as [storages.utils.setting];
    [module_globals] is [globals()] of this module. *)
Definition _setting (module_globals : gmap string PyObj) (s : Settings PyObj)
    (name : string) (default : option PyObj) : option PyObj :=
  match STORAGE_CONFIG s !! name with
  | Some v => Some v
  | None =>
      match module_globals !! name with
      | Some v => Some v
      | None => default
      end
  end.

(** A [dict] is true when it has at least one key; [STORAGE_BACKEND] is read
    again because the previous block does not bind it. *)
Definition storage_config_warning : M unit :=
  s <- get_settings ;;
  if negb (Nat.eqb (size (STORAGE_CONFIG s)) 0%nat)
     && negb (bool_decide (is_Some (STORAGE_BACKEND s)))
  then warnings_warn MSG_STORAGE_CONFIG
  else ret tt.

(** *** SSO (lines 214-218) *)

Definition sso : M unit :=
  s <- get_settings ;;
  if SOCIAL_AUTH_ENABLED s then
    modify_settings (λ s, set_INSTALLED_APPS (INSTALLED_APPS s ++ ["social_django"]) s) ;;;
    modify_settings
      (λ s, set_AUTHENTICATION_BACKENDS (SOCIAL_AUTH_MODULE s :: AUTHENTICATION_BACKENDS s) s) ;;;
    s <- get_settings ;;
    backend_name <- lift (get_sso_backend_name (SOCIAL_AUTH_MODULE s)) ;;
    modify_settings
      (λ s, set_LOGIN_URL ("/" +:+ BASE_PATH s +:+ "login/" +:+ backend_name +:+ "/") s)
  else ret tt.

(** *** Plugins (lines 226-233) *)

Definition plugin_args (s : Settings PyObj) : PluginArgs PyObj :=
  {| pl_plugins := PLUGINS s; pl_installed_apps := INSTALLED_APPS s;
     pl_plugins_config := PLUGINS_CONFIG s; pl_version := VERSION s;
     pl_middleware := MIDDLEWARE s; pl_cacheops := CACHEOPS s |}.

Definition plugins : M unit :=
  λ w, let '(r, a) := load_plugins (plugin_args (settings w)) in
       (r, with_settings (set_plugin_objects a (settings w)) w).

(** *** The callback *)

Definition _configure_settings (config_path : string) : M unit :=
  modify_settings (set_SETTINGS_PATH config_path) ;;;
  storage_directories ;;;
  databases ;;;
  pagination ;;;
  authentication ;;;
  release_check_url ;;;
  release_check_timeout ;;;
  media_storage ;;;
  storage_config_warning ;;;
  sso ;;;
  plugins.

End Steps.

(** ** The statements executed before each block

    [through_X] runs the callback up to and including block [X]. *)

Section Prefixes.

Context {PyObj FS : Type} `{!OS FS} `{!PluginUtils PyObj}.

Local Abbreviation M := (@M PyObj FS).

Definition through_directories (config_path : string) : M unit :=
  modify_settings (set_SETTINGS_PATH config_path) ;;; storage_directories.

Definition through_databases (config_path : string) : M unit :=
  through_directories config_path ;;; databases.

Definition through_pagination (config_path : string) : M unit :=
  through_databases config_path ;;; pagination.

Definition through_authentication (config_path : string) : M unit :=
  through_pagination config_path ;;; authentication.

Definition through_release_url (config_path : string) : M unit :=
  through_authentication config_path ;;; release_check_url.

Definition through_release_timeout (config_path : string) : M unit :=
  through_release_url config_path ;;; release_check_timeout.

Definition through_media_storage (config_path : string) : M unit :=
  through_release_timeout config_path ;;; media_storage.

Definition through_storage_warning (config_path : string) : M unit :=
  through_media_storage config_path ;;; storage_config_warning.

Definition through_sso (config_path : string) : M unit :=
  through_storage_warning config_path ;;; sso.

(** The engine string [DATABASES["default"]["ENGINE"]], when both keys exist. *)
Definition engine_of (s : Settings PyObj) : option string :=
  DATABASES s !! "default" ≫= λ d, d !! "ENGINE".

(** A statement leaves an observation of the world alone, whatever its
    outcome. *)
Definition preserves {A B} (f : World PyObj FS → B) (m : M A) : Prop :=
  ∀ w r w', m w = (r, w') → f w' = f w.

(** A statement behaves the same whatever can or cannot be imported. *)
Definition ignores_imports {A} (m : M A) : Prop :=
  ∀ env w, m (with_import_env env w) =
           (let '(r, w') := m w in (r, with_import_env env w')).

(** The paths that the storage-directories block looks for, in its order. *)
Definition storage_paths (s : Settings PyObj) : list string :=
  [ GIT_ROOT s; JOBS_ROOT s; PyStr.os_path_join (JOBS_ROOT s) "__init__.py";
    MEDIA_ROOT s; PyStr.os_path_join (MEDIA_ROOT s) "devicetype-images";
    PyStr.os_path_join (MEDIA_ROOT s) "image-attachments"; STATIC_ROOT s ].

End Prefixes.

(** ** A concrete world for the examples *)

Module Demo.

(** A file system that records the paths created so far and never fails. *)
#[global] Instance list_OS : OS (list string) := {|
  os_path_exists p f := bool_decide (p ∈ f);
  os_makedirs p f := (Ok tt, p :: f);
  Path_touch p f := (Ok tt, p :: f)
|}.

(** One known SSO backend; every plugin is appended to the installed apps. *)
#[global] Instance utils : PluginUtils string := {|
  get_sso_backend_name m :=
    if String.eqb m "social_core.backends.google.GoogleOAuth2" then Ok "google-oauth2"
    else Raise (ImproperlyConfigured ("Unable to import Social Auth Module " +:+ m +:+ "."));
  load_plugins a :=
    (Ok tt,
     {| pl_plugins := pl_plugins a;
        pl_installed_apps := pl_installed_apps a ++ pl_plugins a;
        pl_plugins_config := pl_plugins_config a; pl_version := pl_version a;
        pl_middleware := pl_middleware a; pl_cacheops := pl_cacheops a |})
|}.

(** Collaborators whose resolver knows no backend at all. *)
Definition failing_utils : PluginUtils string := {|
  get_sso_backend_name m :=
    Raise (ImproperlyConfigured ("Unable to import Social Auth Module " +:+ m +:+ "."));
  load_plugins a := (Ok tt, a)
|}.

(** A validator that accepts the schemes Django accepts by default. *)
Definition well_formed (url : string) : bool :=
  PyStr.startswith url "http://" || PyStr.startswith url "https://"
  || PyStr.startswith url "ftp://" || PyStr.startswith url "ftps://".

(** The fields the examples vary; the rest are fixed in [settings_of]. *)
Record Overrides : Type := mkOverrides {
  o_metrics : bool;
  o_paginate_count : Z;
  o_per_page : list Z;
  o_backends : list string;
  o_url : option string;
  o_timeout : Z;
  o_storage_backend : option string;
  o_storage_config : gmap string string;
  o_sso : bool;
  o_base_path : string
}.

Definition defaults : Overrides :=
  {| o_metrics := false; o_paginate_count := 50;
     o_per_page := [25; 50; 100; 250; 500; 1000];
     o_backends := [REQUIRED_BACKEND]; o_url := None; o_timeout := 86400;
     o_storage_backend := None; o_storage_config := ∅; o_sso := false;
     o_base_path := "" |}.

Definition with_metrics (b : bool) (o : Overrides) : Overrides :=
  {| o_metrics := b; o_paginate_count := o_paginate_count o; o_per_page := o_per_page o;
     o_backends := o_backends o; o_url := o_url o; o_timeout := o_timeout o;
     o_storage_backend := o_storage_backend o; o_storage_config := o_storage_config o;
     o_sso := o_sso o; o_base_path := o_base_path o |}.

Definition with_page_sizes (pc : Z) (l : list Z) (o : Overrides) : Overrides :=
  {| o_metrics := o_metrics o; o_paginate_count := pc; o_per_page := l;
     o_backends := o_backends o; o_url := o_url o; o_timeout := o_timeout o;
     o_storage_backend := o_storage_backend o; o_storage_config := o_storage_config o;
     o_sso := o_sso o; o_base_path := o_base_path o |}.

Definition with_backends (l : list string) (o : Overrides) : Overrides :=
  {| o_metrics := o_metrics o; o_paginate_count := o_paginate_count o;
     o_per_page := o_per_page o; o_backends := l; o_url := o_url o;
     o_timeout := o_timeout o; o_storage_backend := o_storage_backend o;
     o_storage_config := o_storage_config o; o_sso := o_sso o;
     o_base_path := o_base_path o |}.

Definition with_url (u : option string) (o : Overrides) : Overrides :=
  {| o_metrics := o_metrics o; o_paginate_count := o_paginate_count o;
     o_per_page := o_per_page o; o_backends := o_backends o; o_url := u;
     o_timeout := o_timeout o; o_storage_backend := o_storage_backend o;
     o_storage_config := o_storage_config o; o_sso := o_sso o;
     o_base_path := o_base_path o |}.

Definition with_timeout (t : Z) (o : Overrides) : Overrides :=
  {| o_metrics := o_metrics o; o_paginate_count := o_paginate_count o;
     o_per_page := o_per_page o; o_backends := o_backends o; o_url := o_url o;
     o_timeout := t; o_storage_backend := o_storage_backend o;
     o_storage_config := o_storage_config o; o_sso := o_sso o;
     o_base_path := o_base_path o |}.

Definition with_storage (b : option string) (c : gmap string string) (o : Overrides) : Overrides :=
  {| o_metrics := o_metrics o; o_paginate_count := o_paginate_count o;
     o_per_page := o_per_page o; o_backends := o_backends o; o_url := o_url o;
     o_timeout := o_timeout o; o_storage_backend := b; o_storage_config := c;
     o_sso := o_sso o; o_base_path := o_base_path o |}.

Definition with_sso (base : string) (o : Overrides) : Overrides :=
  {| o_metrics := o_metrics o; o_paginate_count := o_paginate_count o;
     o_per_page := o_per_page o; o_backends := o_backends o; o_url := o_url o;
     o_timeout := o_timeout o; o_storage_backend := o_storage_backend o;
     o_storage_config := o_storage_config o; o_sso := true; o_base_path := base |}.

(** The scenarios used below. *)
Definition page_size_unlisted : Overrides := with_page_sizes 75 [100; 25; 50] defaults.

Definition page_size_listed_unsorted : Overrides := with_page_sizes 25 [100; 25; 50] defaults.

Definition no_required_backend : Overrides :=
  with_backends ["django.contrib.auth.backends.ModelBackend"] defaults.

Definition malformed_url : Overrides := with_url (Some "not-a-url") defaults.

Definition wellformed_url : Overrides :=
  with_url (Some "https://api.github.com/repos/x/y") defaults.

Definition s3_backend : Overrides :=
  with_storage (Some "storages.backends.s3boto3.S3Boto3Storage") ∅ defaults.

Definition config_without_backend : Overrides :=
  with_storage None {[ "AWS_ACCESS_KEY_ID" := "key" ]} defaults.

Definition sso_on : Overrides := with_sso "nautobot/" defaults.

Definition metrics_on : Overrides := with_metrics true defaults.

Definition settings_of (o : Overrides) : Settings string :=
  {| SETTINGS_PATH := None;
     GIT_ROOT := "/opt/nautobot/git"; JOBS_ROOT := "/opt/nautobot/jobs";
     MEDIA_ROOT := "/opt/nautobot/media"; STATIC_ROOT := "/opt/nautobot/static";
     METRICS_ENABLED := o_metrics o;
     DATABASES := {[ "default" := {[ "ENGINE" := "django.db.backends.postgresql" ]} ]};
     PAGINATE_COUNT := o_paginate_count o; PER_PAGE_DEFAULTS := o_per_page o;
     AUTHENTICATION_BACKENDS := o_backends o;
     RELEASE_CHECK_URL := o_url o; RELEASE_CHECK_TIMEOUT := o_timeout o;
     STORAGE_BACKEND := o_storage_backend o;
     DEFAULT_FILE_STORAGE := "django.core.files.storage.FileSystemStorage";
     STORAGE_CONFIG := o_storage_config o;
     SOCIAL_AUTH_ENABLED := o_sso o;
     SOCIAL_AUTH_MODULE := "social_core.backends.google.GoogleOAuth2";
     INSTALLED_APPS := ["django.contrib.auth"; "nautobot.core"];
     BASE_PATH := o_base_path o; LOGIN_URL := "/login/";
     PLUGINS := ["nautobot_golden_config"]; PLUGINS_CONFIG := "{}"; VERSION := "1.0.0";
     MIDDLEWARE := []; CACHEOPS := "{}" |}.

(** django-storages is installed or not; nothing else is imported here. *)
Definition env (storages_installed : bool) (name : string) : import_status :=
  if storages_installed then Importable else NotFound.

Definition world (o : Overrides) (storages_installed : bool) : World string (list string) :=
  {| settings := settings_of o; fs := []; import_env := env storages_installed;
     storages_utils_setting := StoragesOwnSetting; warnings_log := [] |}.

Definition CONFIG_PATH : string := "/opt/nautobot/nautobot_config.py".

(** The [storages] package is there but its [utils] module is not. *)
Definition env_without_utils (name : string) : import_status :=
  if String.eqb name "storages" then Importable else NotFound.

(** Metrics enabled on settings whose [DATABASES] is empty. *)
Definition world_without_databases : World string (list string) :=
  with_settings (set_DATABASES ∅ (settings_of metrics_on))
    {| settings := settings_of metrics_on; fs := []; import_env := env true;
       storages_utils_setting := StoragesOwnSetting; warnings_log := [] |}.

(** The callback on a scenario. *)
Definition run (o : Overrides) (storages_installed : bool) :
    Result unit * World string (list string) :=
  _configure_settings CONFIG_PATH (world o storages_installed).

End Demo.

(** * Properties *)

(** ** The primitives on small inputs *)

Example contains_postgresql :
  PyStr.contains "postgres" "django.db.backends.postgresql" = true.
Proof. reflexivity. Qed.

Example contains_mysql :
  PyStr.contains "postgres" "django.db.backends.mysql" = false.
Proof. reflexivity. Qed.

Example contains_empty : PyStr.contains "" "" = true.
Proof. reflexivity. Qed.

Example startswith_storages :
  PyStr.startswith "storages.backends.s3boto3.S3Boto3Storage" "storages." = true ∧
  PyStr.startswith "django.core.files.storage.FileSystemStorage" "storages." = false.
Proof. split; reflexivity. Qed.

Example os_path_join_examples :
  PyStr.os_path_join "/opt/nautobot/jobs" "__init__.py" = "/opt/nautobot/jobs/__init__.py" ∧
  PyStr.os_path_join "/opt/nautobot/media/" "image-attachments"
  = "/opt/nautobot/media/image-attachments" ∧
  PyStr.os_path_join "" "devicetype-images" = "devicetype-images".
Proof. split_and!; reflexivity. Qed.

Example sorted_example : sorted [100; 25; 50; 75] = [25; 50; 75; 100].
Proof. reflexivity. Qed.

Example import_without_storages :
  import_storages_utils (Demo.env false) = Raise (ModuleNotFoundError "storages").
Proof. reflexivity. Qed.

Example default_run_returns : (Demo.run Demo.defaults true).1 = Ok tt.
Proof. by vm_compute. Qed.

Section Proofs.

Context {PyObj FS : Type} `{!OS FS} `{!PluginUtils PyObj}.

Local Abbreviation M := (@M PyObj FS).
Local Abbreviation World := (World PyObj FS).
Local Abbreviation Settings := (Settings PyObj).

Implicit Types (w : World) (s : Settings).

(** ** Running a sequence *)

Lemma bind_run_Ok {A B} (m : M A) (k : A → M B) w a w1 :
  m w = (Ok a, w1) → bind m k w = k a w1.
Proof. intros Hm. unfold bind. by rewrite Hm. Qed.

Lemma bind_run_Raise {A B} (m : M A) (k : A → M B) w e w1 :
  m w = (Raise e, w1) → bind m k w = (Raise e, w1).
Proof. intros Hm. unfold bind. by rewrite Hm. Qed.

Lemma bind_Ok_inv {A B} (m : M A) (k : A → M B) w b w' :
  bind m k w = (Ok b, w') → ∃ a w1, m w = (Ok a, w1) ∧ k a w1 = (Ok b, w').
Proof.
  unfold bind. destruct (m w) as [[a|e] w1]; [eauto | discriminate].
Qed.

Lemma bind_cases {A B} (m : M A) (k : A → M B) w r w' :
  bind m k w = (r, w') →
  (∃ e, m w = (Raise e, w') ∧ r = Raise e) ∨
  (∃ a w1, m w = (Ok a, w1) ∧ k a w1 = (r, w')).
Proof.
  unfold bind. destruct (m w) as [[a|e] w1]; [eauto | ].
  intros [= <- <-]. eauto.
Qed.

(** ** Statements that leave an observation of the world alone *)

Local Abbreviation keeps := (preserves (PyObj:=PyObj) (FS:=FS)).

Lemma preserves_pure {A B} (f : World → B) (x : World → Result A) :
  keeps f (λ w, (x w, w)).
Proof. by intros w r w' [= <- <-]. Qed.

Lemma preserves_warn {B} (f : World → B) msg :
  (∀ w, f (with_warning msg w) = f w) → keeps f (warnings_warn msg).
Proof. intros Hf w r w' [= <- <-]. apply Hf. Qed.

Lemma preserves_ensure_dir {B} (f : World → B) p :
  (∀ w x, f (with_fs x w) = f w) → keeps f (ensure_dir p).
Proof.
  intros Hf w r w'. unfold ensure_dir.
  destruct (os_path_exists p (fs w)); [by intros [= <- <-] | ].
  destruct (os_makedirs p (fs w)). intros [= <- <-]. apply Hf.
Qed.

Lemma preserves_ensure_file {B} (f : World → B) p :
  (∀ w x, f (with_fs x w) = f w) → keeps f (ensure_file p).
Proof.
  intros Hf w r w'. unfold ensure_file.
  destruct (os_path_exists p (fs w)); [by intros [= <- <-] | ].
  destruct (Path_touch p (fs w)). intros [= <- <-]. apply Hf.
Qed.

Lemma preserves_modify {B} (f : World → B) (g : Settings → Settings) :
  (∀ w, f (with_settings (g (settings w)) w) = f w) → keeps f (modify_settings g).
Proof. intros Hg w r w' [= <- <-]. apply Hg. Qed.

Lemma preserves_patch {B} (f : World → B) i :
  (∀ w, f (with_storages_utils_setting i w) = f w) →
  keeps f (λ w, (Ok tt, with_storages_utils_setting i w)).
Proof. intros Hf w r w' [= <- <-]. apply Hf. Qed.

Lemma preserves_plugins {B} (f : World → B) :
  (∀ a w, f (with_settings (set_plugin_objects a (settings w)) w) = f w) →
  keeps f plugins.
Proof.
  intros Hf w r w'. unfold plugins.
  destruct (load_plugins (plugin_args (settings w))). intros [= <- <-]. apply Hf.
Qed.

Lemma preserves_bind {A B C} (f : World → C) (m : M A) (k : A → M B) :
  keeps f m → (∀ a, keeps f (k a)) → keeps f (bind m k).
Proof.
  intros Hm Hk w r w' Hrun.
  apply bind_cases in Hrun as [(e & Hrun & _) | (a & w1 & Hrun & Hrest)].
  - by apply Hm in Hrun.
  - apply Hm in Hrun. apply Hk in Hrest. congruence.
Qed.

Lemma preserves_try {A B} (f : World → B) (m : M A) handler :
  keeps f m → (∀ e h, handler e = Some h → keeps f h) →
  keeps f (try_except m handler).
Proof.
  intros Hm Hh w r w'. unfold try_except.
  destruct (m w) as [[a|e] w1] eqn:Hrun; apply Hm in Hrun.
  - intros [= <- <-]. done.
  - destruct (handler e) as [h|] eqn:He.
    + intros Hrest. apply (Hh _ _ He) in Hrest. congruence.
    + intros [= <- <-]. done.
Qed.

Lemma preserves_url_handler {B} (f : World → B) e (h : M unit) :
  url_handler e = Some h → keeps f h.
Proof. destruct e; intros [= <-]. apply (preserves_pure f (λ _, Raise _)). Qed.

Lemma preserves_storages_handler {B} (f : World → B) backend e (h : M unit) :
  storages_handler backend e = Some h → keeps f h.
Proof.
  destruct e; intros [= <-].
  destruct (String.eqb _ _); apply (preserves_pure f (λ _, Raise _)).
Qed.

Ltac preserves_step :=
  first
    [ apply (preserves_pure _ (λ _, Ok _))
    | apply (preserves_pure _ (λ _, Raise _))
    | apply (preserves_pure _ (λ _, _))
    | apply (preserves_pure _ (λ w, Ok (settings w)))
    | apply (preserves_pure _ (λ w, import_storages_utils (import_env w)))
    | apply preserves_warn; intros; reflexivity
    | apply preserves_ensure_dir; intros; reflexivity
    | apply preserves_ensure_file; intros; reflexivity
    | apply preserves_patch; intros; reflexivity
    | apply preserves_modify; intros; reflexivity
    | apply preserves_plugins; intros; reflexivity
    | apply preserves_bind; [ | intros ? ]
    | apply preserves_try;
        [ | intros ? ? ?;
            first [ eapply preserves_url_handler; eassumption
                  | eapply preserves_storages_handler; eassumption ] ]
    | match goal with
      | |- keeps _ (if ?c then _ else _) => destruct c
      | |- keeps _ (match ?x with _ => _ end) => destruct x
      end ].

Ltac preserves_tac :=
  unfold through_sso, through_storage_warning, through_media_storage,
    through_release_timeout, through_release_url, through_authentication,
    through_pagination, through_databases, through_directories,
    _configure_settings, storage_directories, databases, pagination,
    authentication, release_check_url, release_check_timeout, media_storage,
    storage_config_warning, sso, getitem;
  repeat preserves_step.

(** ** The callback as "prefix, then the rest" *)

Lemma bind_assoc {A B C} (m : M A) (k : A → M B) (h : B → M C) w :
  bind (bind m k) h w = bind m (λ a, bind (k a) h) w.
Proof. unfold bind. by destruct (m w) as [[a|e] w1]. Qed.

Lemma split_at_databases path w :
  _configure_settings path w =
  (through_directories path ;;; databases ;;; pagination ;;; authentication ;;;
   release_check_url ;;; release_check_timeout ;;; media_storage ;;;
   storage_config_warning ;;; sso ;;; plugins) w.
Proof. unfold through_directories. by rewrite bind_assoc. Qed.

Lemma split_at_pagination path w :
  _configure_settings path w =
  (through_databases path ;;; pagination ;;; authentication ;;;
   release_check_url ;;; release_check_timeout ;;; media_storage ;;;
   storage_config_warning ;;; sso ;;; plugins) w.
Proof. unfold through_databases. rewrite bind_assoc. apply split_at_databases. Qed.

Lemma split_at_authentication path w :
  _configure_settings path w =
  (through_pagination path ;;; authentication ;;;
   release_check_url ;;; release_check_timeout ;;; media_storage ;;;
   storage_config_warning ;;; sso ;;; plugins) w.
Proof. unfold through_pagination. rewrite bind_assoc. apply split_at_pagination. Qed.

Lemma split_at_release_url path w :
  _configure_settings path w =
  (through_authentication path ;;;
   release_check_url ;;; release_check_timeout ;;; media_storage ;;;
   storage_config_warning ;;; sso ;;; plugins) w.
Proof. unfold through_authentication. rewrite bind_assoc. apply split_at_authentication. Qed.

Lemma split_at_release_timeout path w :
  _configure_settings path w =
  (through_release_url path ;;; release_check_timeout ;;; media_storage ;;;
   storage_config_warning ;;; sso ;;; plugins) w.
Proof. unfold through_release_url. rewrite bind_assoc. apply split_at_release_url. Qed.

Lemma split_at_media_storage path w :
  _configure_settings path w =
  (through_release_timeout path ;;; media_storage ;;;
   storage_config_warning ;;; sso ;;; plugins) w.
Proof.
  unfold through_release_timeout. rewrite bind_assoc. apply split_at_release_timeout.
Qed.

Lemma split_at_storage_warning path w :
  _configure_settings path w =
  (through_media_storage path ;;; storage_config_warning ;;; sso ;;; plugins) w.
Proof.
  unfold through_media_storage. rewrite bind_assoc. apply split_at_media_storage.
Qed.

Lemma split_at_sso path w :
  _configure_settings path w = (through_storage_warning path ;;; sso ;;; plugins) w.
Proof.
  unfold through_storage_warning. rewrite bind_assoc. apply split_at_storage_warning.
Qed.

(** ** Pagination *)

Lemma sorted_Sorted l : Sorted Z.le (sorted l).
Proof. apply Sorted_merge_sort; apply _. Qed.

Lemma sorted_Permutation l : sorted l ≡ₚ l.
Proof. apply merge_sort_Permutation. Qed.

Lemma pagination_present w :
  PAGINATE_COUNT (settings w) ∈ PER_PAGE_DEFAULTS (settings w) →
  pagination w = (Ok tt, w).
Proof.
  intros Hin. unfold pagination, bind, get_settings.
  by rewrite bool_decide_true.
Qed.

Lemma pagination_absent w :
  PAGINATE_COUNT (settings w) ∉ PER_PAGE_DEFAULTS (settings w) →
  pagination w =
  (Ok tt,
   with_settings
     (set_PER_PAGE_DEFAULTS
        (sorted (PER_PAGE_DEFAULTS (settings w) ++ [PAGINATE_COUNT (settings w)]))
        (settings w)) w).
Proof.
  intros Hin. unfold pagination, bind, get_settings.
  by rewrite bool_decide_false.
Qed.

Lemma page_sizes_before_pagination path :
  keeps (λ w, (PAGINATE_COUNT (settings w), PER_PAGE_DEFAULTS (settings w)))
    (through_databases path).
Proof. preserves_tac. Qed.

Lemma page_sizes_after_pagination :
  keeps (λ w, (PAGINATE_COUNT (settings w), PER_PAGE_DEFAULTS (settings w)))
    (authentication ;;; release_check_url ;;; release_check_timeout ;;;
     media_storage ;;; storage_config_warning ;;; sso ;;; plugins).
Proof. preserves_tac. Qed.

(** Once the page size is listed, no run of the callback touches the list,
    however the run ends. *)
Lemma configure_settings_keeps_listed_page_size path w r w' :
  PAGINATE_COUNT (settings w) ∈ PER_PAGE_DEFAULTS (settings w) →
  _configure_settings path w = (r, w') →
  PER_PAGE_DEFAULTS (settings w') = PER_PAGE_DEFAULTS (settings w).
Proof.
  intros Hin. rewrite split_at_pagination. intros Hrun.
  apply bind_cases in Hrun as [(e & Hpre & _) | ([] & w1 & Hpre & Hrest)];
    apply page_sizes_before_pagination in Hpre; injection Hpre as Hpc Hl.
  - done.
  - rewrite <- Hpc, <- Hl in Hin.
    rewrite (bind_run_Ok _ _ _ _ _ (pagination_present _ Hin)) in Hrest.
    apply page_sizes_after_pagination in Hrest. injection Hrest as _ Hl'.
    congruence.
Qed.

(** A normal run whose input lacks the page size ends with the sorted,
    extended list. *)
Lemma configure_settings_adds_page_size path w w' :
  PAGINATE_COUNT (settings w) ∉ PER_PAGE_DEFAULTS (settings w) →
  _configure_settings path w = (Ok tt, w') →
  PAGINATE_COUNT (settings w') = PAGINATE_COUNT (settings w) ∧
  PER_PAGE_DEFAULTS (settings w') =
  sorted (PER_PAGE_DEFAULTS (settings w) ++ [PAGINATE_COUNT (settings w)]).
Proof.
  intros Hin. rewrite split_at_pagination. intros Hrun.
  apply bind_Ok_inv in Hrun as ([] & w1 & Hpre & Hrest).
  apply page_sizes_before_pagination in Hpre. injection Hpre as Hpc Hl.
  rewrite <- Hpc, <- Hl in Hin |- *.
  rewrite (bind_run_Ok _ _ _ _ _ (pagination_absent _ Hin)) in Hrest.
  apply page_sizes_after_pagination in Hrest. by injection Hrest as -> ->.
Qed.

(** C9: when [PAGINATE_COUNT] is already a member of [PER_PAGE_DEFAULTS], the
    pagination step returns normally and leaves the world, hence the list,
    exactly as it was: nothing is appended and nothing is re-sorted, so an
    unsorted list stays unsorted.  The same holds for the list after a whole
    run of the callback, however that run ends. *)
Theorem C9_pagination_present_is_noop w :
  PAGINATE_COUNT (settings w) ∈ PER_PAGE_DEFAULTS (settings w) →
  pagination w = (Ok tt, w) ∧
  ∀ path r w', _configure_settings path w = (r, w') →
               PER_PAGE_DEFAULTS (settings w') = PER_PAGE_DEFAULTS (settings w).
Proof.
  intros Hin. split; [by apply pagination_present | ].
  intros path r w'. by apply configure_settings_keeps_listed_page_size.
Qed.

(** C2: when [PAGINATE_COUNT] is not a member of [PER_PAGE_DEFAULTS], the
    pagination step returns normally with the list replaced by
    [sorted(old + [PAGINATE_COUNT])]; that list contains the value, is sorted
    ascending and is a permutation of the old list plus the one new value.
    Running the step again changes nothing, so the value is not added twice.
    A whole run of the callback that returns ends with that same list, and any
    further run on the result leaves the list as it is. *)
Theorem C2_pagination_inserts_and_sorts w :
  PAGINATE_COUNT (settings w) ∉ PER_PAGE_DEFAULTS (settings w) →
  let pc := PAGINATE_COUNT (settings w) in
  let new := sorted (PER_PAGE_DEFAULTS (settings w) ++ [pc]) in
  pc ∈ new ∧ Sorted Z.le new ∧ new ≡ₚ pc :: PER_PAGE_DEFAULTS (settings w) ∧
  (∃ w1, pagination w = (Ok tt, w1) ∧
         PER_PAGE_DEFAULTS (settings w1) = new ∧
         pagination w1 = (Ok tt, w1)) ∧
  (∀ path w', _configure_settings path w = (Ok tt, w') →
     PER_PAGE_DEFAULTS (settings w') = new ∧
     ∀ path2 r w'', _configure_settings path2 w' = (r, w'') →
                    PER_PAGE_DEFAULTS (settings w'') = new).
Proof.
  intros Hin pc new.
  assert (Hperm : new ≡ₚ pc :: PER_PAGE_DEFAULTS (settings w)).
  { unfold new. rewrite sorted_Permutation. apply Permutation_app_comm. }
  assert (Hpc : pc ∈ new) by (rewrite Hperm; left).
  split_and!; [done | apply sorted_Sorted | done | | ].
  - eexists. split_and!; [by apply pagination_absent | done | ].
    apply pagination_present. exact Hpc.
  - intros path w' Hrun.
    destruct (configure_settings_adds_page_size _ _ _ Hin Hrun) as [Hpc' Hl].
    split; [done | ]. intros path2 r w'' Hrun2.
    transitivity (PER_PAGE_DEFAULTS (settings w')); [ | exact Hl].
    eapply configure_settings_keeps_listed_page_size; [ | done].
    by rewrite Hpc', Hl.
Qed.

(** ** Authentication *)

Lemma authentication_missing w :
  REQUIRED_BACKEND ∉ AUTHENTICATION_BACKENDS (settings w) →
  authentication w = (Raise (ImproperlyConfigured MSG_BACKEND), w).
Proof.
  intros Hin. unfold authentication, bind, get_settings.
  by rewrite bool_decide_false.
Qed.

Lemma authentication_present w :
  REQUIRED_BACKEND ∈ AUTHENTICATION_BACKENDS (settings w) →
  authentication w = (Ok tt, w).
Proof.
  intros Hin. unfold authentication, bind, get_settings.
  by rewrite bool_decide_true.
Qed.

Lemma backends_before_authentication path :
  keeps (λ w, AUTHENTICATION_BACKENDS (settings w)) (through_pagination path).
Proof. preserves_tac. Qed.

(** C3: when the required backend identifier is not an element of
    [AUTHENTICATION_BACKENDS], the authentication step raises
    [ImproperlyConfigured] and leaves the world as it found it; a run of the
    callback that gets as far as this step ends with that exception, and no run
    returns normally.  When the identifier is an element, the step returns
    normally. *)
Theorem C3_required_backend w :
  (REQUIRED_BACKEND ∉ AUTHENTICATION_BACKENDS (settings w) →
   authentication w = (Raise (ImproperlyConfigured MSG_BACKEND), w) ∧
   (∀ path w1, through_pagination path w = (Ok tt, w1) →
      _configure_settings path w = (Raise (ImproperlyConfigured MSG_BACKEND), w1)) ∧
   (∀ path w', _configure_settings path w ≠ (Ok tt, w'))) ∧
  (REQUIRED_BACKEND ∈ AUTHENTICATION_BACKENDS (settings w) →
   authentication w = (Ok tt, w)).
Proof.
  split; [ | apply authentication_present].
  intros Hin. split_and!; [by apply authentication_missing | | ].
  - intros path w1 Hpre. rewrite split_at_authentication.
    rewrite (bind_run_Ok _ _ _ _ _ Hpre).
    apply bind_run_Raise, authentication_missing.
    by rewrite (backends_before_authentication _ _ _ _ Hpre).
  - intros path w'. rewrite split_at_authentication. intros Hrun.
    apply bind_Ok_inv in Hrun as ([] & w1 & Hpre & Hrest).
    apply bind_Ok_inv in Hrest as ([] & w2 & Hauth & _).
    rewrite authentication_missing in Hauth; [done | ].
    by rewrite (backends_before_authentication _ _ _ _ Hpre).
Qed.

(** ** Releases *)

(** Constructing the validator cannot raise, so the handler is dead code. *)
Lemma release_check_url_never_raises w : release_check_url w = (Ok tt, w).
Proof.
  unfold release_check_url, bind, get_settings.
  destruct (RELEASE_CHECK_URL (settings w)) as [url|]; [ | done].
  by destruct (PyStr.truthy url).
Qed.

Lemma release_check_timeout_low w :
  RELEASE_CHECK_TIMEOUT (settings w) < 3600 →
  release_check_timeout w = (Raise (ImproperlyConfigured MSG_TIMEOUT), w).
Proof.
  intros Hlt. unfold release_check_timeout, bind, get_settings.
  by apply Z.ltb_lt in Hlt as ->.
Qed.

Lemma release_check_timeout_high w :
  3600 ≤ RELEASE_CHECK_TIMEOUT (settings w) →
  release_check_timeout w = (Ok tt, w).
Proof.
  intros Hge. unfold release_check_timeout, bind, get_settings.
  by apply Z.ltb_ge in Hge as ->.
Qed.

Lemma timeout_before_release_timeout path :
  keeps (λ w, RELEASE_CHECK_TIMEOUT (settings w)) (through_release_url path).
Proof. preserves_tac. Qed.

(** C4: the timeout step raises [ImproperlyConfigured] if and only if
    [RELEASE_CHECK_TIMEOUT] is strictly below 3600, and returns normally if and
    only if it is at least 3600; either way the world is untouched.  A run of
    the callback that gets as far as this step with a value below 3600 ends
    with that exception. *)
Theorem C4_release_check_timeout_threshold w :
  (release_check_timeout w = (Raise (ImproperlyConfigured MSG_TIMEOUT), w) ↔
   RELEASE_CHECK_TIMEOUT (settings w) < 3600) ∧
  (release_check_timeout w = (Ok tt, w) ↔
   3600 ≤ RELEASE_CHECK_TIMEOUT (settings w)) ∧
  (∀ path w1, RELEASE_CHECK_TIMEOUT (settings w) < 3600 →
     through_release_url path w = (Ok tt, w1) →
     _configure_settings path w = (Raise (ImproperlyConfigured MSG_TIMEOUT), w1)).
Proof.
  split_and!.
  - split; [ | apply release_check_timeout_low].
    intros Hrun. destruct (Z.lt_ge_cases (RELEASE_CHECK_TIMEOUT (settings w)) 3600)
      as [Hlt|Hge]; [done | ].
    by rewrite release_check_timeout_high in Hrun.
  - split; [ | apply release_check_timeout_high].
    intros Hrun. destruct (Z.lt_ge_cases (RELEASE_CHECK_TIMEOUT (settings w)) 3600)
      as [Hlt|Hge]; [ | done].
    by rewrite release_check_timeout_low in Hrun.
  - intros path w1 Hlt Hpre. rewrite split_at_release_timeout.
    rewrite (bind_run_Ok _ _ _ _ _ Hpre).
    apply bind_run_Raise, release_check_timeout_low.
    by rewrite (timeout_before_release_timeout _ _ _ _ Hpre).
Qed.

(** ** Databases *)

Lemma engine_of_Some s e :
  engine_of s = Some e ↔
  ∃ d, DATABASES s !! "default" = Some d ∧ d !! "ENGINE" = Some e.
Proof.
  unfold engine_of. destruct (DATABASES s !! "default") as [d|]; simpl.
  - split; [eauto | by intros (d' & [= <-] & ?)].
  - split; [done | by intros (d' & ? & ?)].
Qed.

Lemma databases_off w :
  METRICS_ENABLED (settings w) = false → databases w = (Ok tt, w).
Proof. intros Hoff. unfold databases, bind, get_settings. by rewrite Hoff. Qed.

Lemma databases_other_engine w e :
  engine_of (settings w) = Some e → PyStr.contains "postgres" e = false →
  databases w = (Ok tt, w).
Proof.
  intros (d & Hd & He)%engine_of_Some Hsub.
  unfold databases, bind, get_settings, getitem.
  destruct (METRICS_ENABLED (settings w)); [ | done].
  rewrite Hd. simpl. rewrite He. simpl. by rewrite Hsub.
Qed.

Lemma databases_swap w e :
  METRICS_ENABLED (settings w) = true →
  engine_of (settings w) = Some e → PyStr.contains "postgres" e = true →
  ∃ w1, databases w = (Ok tt, w1) ∧ engine_of (settings w1) = Some PROMETHEUS_ENGINE.
Proof.
  intros Hon (d & Hd & He)%engine_of_Some Hsub.
  unfold databases, bind, get_settings, getitem.
  rewrite Hon, Hd. simpl. rewrite He. simpl. rewrite Hsub.
  eexists. split; [reflexivity | ].
  unfold engine_of. simpl. rewrite lookup_insert_eq. simpl.
  by rewrite lookup_insert_eq.
Qed.

Lemma databases_before_databases path :
  keeps (λ w, (METRICS_ENABLED (settings w), DATABASES (settings w)))
    (through_directories path).
Proof. preserves_tac. Qed.

Lemma databases_after_databases :
  keeps (λ w, DATABASES (settings w))
    (pagination ;;; authentication ;;; release_check_url ;;;
     release_check_timeout ;;; media_storage ;;; storage_config_warning ;;;
     sso ;;; plugins).
Proof. preserves_tac. Qed.

(** C6: with [METRICS_ENABLED] true and ["postgres"] occurring in
    [DATABASES["default"]["ENGINE"]], the databases step returns normally and
    the engine string is then ["django_prometheus.db.backends.postgresql"]; it
    still is when a whole run of the callback returns.  With [METRICS_ENABLED]
    false, or with an engine string in which ["postgres"] does not occur, the
    step changes nothing, and [DATABASES] is the same after any run of the
    callback, however it ends. *)
Theorem C6_metrics_engine_swap w :
  (∀ e, METRICS_ENABLED (settings w) = true →
        engine_of (settings w) = Some e → PyStr.contains "postgres" e = true →
        (∃ w1, databases w = (Ok tt, w1) ∧
               engine_of (settings w1) = Some PROMETHEUS_ENGINE) ∧
        (∀ path w', _configure_settings path w = (Ok tt, w') →
                    engine_of (settings w') = Some PROMETHEUS_ENGINE)) ∧
  (METRICS_ENABLED (settings w) = false ∨
   (∃ e, engine_of (settings w) = Some e ∧ PyStr.contains "postgres" e = false) →
   databases w = (Ok tt, w) ∧
   (∀ path r w', _configure_settings path w = (r, w') →
                 DATABASES (settings w') = DATABASES (settings w))).
Proof.
  split.
  - intros e Hon He Hsub. split; [by eapply databases_swap | ].
    intros path w'. rewrite split_at_databases. intros Hrun.
    apply bind_Ok_inv in Hrun as ([] & w1 & Hpre & Hrest).
    apply databases_before_databases in Hpre. injection Hpre as Hon1 Hdb1.
    destruct (databases_swap w1 e) as (w2 & Hstep & Heng).
    { congruence. } { unfold engine_of in *. by rewrite Hdb1. } { done. }
    rewrite (bind_run_Ok _ _ _ _ _ Hstep) in Hrest.
    apply databases_after_databases in Hrest.
    unfold engine_of in *. by rewrite Hrest.
  - intros Hcase.
    assert (Hnoop : ∀ w1, METRICS_ENABLED (settings w1) = METRICS_ENABLED (settings w) →
                          DATABASES (settings w1) = DATABASES (settings w) →
                          databases w1 = (Ok tt, w1)).
    { intros w1 Hon1 Hdb1. destruct Hcase as [Hoff | (e & He & Hsub)].
      - apply databases_off. congruence.
      - apply (databases_other_engine _ e); [ | done].
        unfold engine_of in *. by rewrite Hdb1. }
    split; [by apply Hnoop | ].
    intros path r w'. rewrite split_at_databases. intros Hrun.
    apply bind_cases in Hrun as [(e & Hpre & _) | ([] & w1 & Hpre & Hrest)];
      apply databases_before_databases in Hpre; injection Hpre as Hon1 Hdb1.
    + done.
    + rewrite (bind_run_Ok _ _ _ _ _ (Hnoop w1 Hon1 Hdb1)) in Hrest.
      apply databases_after_databases in Hrest. congruence.
Qed.

(** ** Media storage *)

Lemma contains_app_r sub a b :
  PyStr.contains sub b = true → PyStr.contains sub (a +:+ b) = true.
Proof.
  intros Hb. induction a as [|c a IH]; [done | ].
  simpl. rewrite IH. apply orb_true_r.
Qed.

Lemma MSG_STORAGES_instructs backend :
  PyStr.contains "pip install django-storages" (MSG_STORAGES backend) = true.
Proof. unfold MSG_STORAGES. by do 2 apply contains_app_r. Qed.

Lemma media_storage_missing_storages w backend :
  STORAGE_BACKEND (settings w) = Some backend →
  PyStr.startswith backend "storages." = true →
  import_env w "storages" = NotFound →
  media_storage w =
  (Raise (ImproperlyConfigured (MSG_STORAGES backend)),
   with_settings (set_DEFAULT_FILE_STORAGE backend (settings w)) w).
Proof.
  intros Hb Hpre Henv.
  unfold media_storage, bind, get_settings, modify_settings, try_except.
  rewrite Hb, Hpre. simpl.
  unfold import_storages_utils, import_one. by rewrite Henv.
Qed.

Lemma media_storage_no_backend w :
  STORAGE_BACKEND (settings w) = None → media_storage w = (Ok tt, w).
Proof. intros Hb. unfold media_storage, bind, get_settings. by rewrite Hb. Qed.

(** Whatever follows the assignment in the block leaves it in place. *)
Lemma media_storage_assigns_first w backend r w' :
  STORAGE_BACKEND (settings w) = Some backend →
  media_storage w = (r, w') →
  DEFAULT_FILE_STORAGE (settings w') = backend.
Proof.
  intros Hb. unfold media_storage, bind at 1, get_settings. rewrite Hb.
  intros Hrun.
  apply bind_cases in Hrun as [(e & [=] & _) | ([] & w1 & [= <-] & Hrest)].
  assert (Hkeep : keeps (λ w, DEFAULT_FILE_STORAGE (settings w))
            (if PyStr.startswith backend "storages." then
               try_except (λ w, (import_storages_utils (import_env w), w))
                 (storages_handler backend) ;;;
               (λ w, (Ok tt, with_storages_utils_setting NautobotSetting w))
             else ret tt)) by repeat preserves_step.
  by apply Hkeep in Hrest.
Qed.

Lemma storage_before_media_storage path :
  keeps (λ w, (STORAGE_BACKEND (settings w), STORAGE_CONFIG (settings w), import_env w))
    (through_release_timeout path).
Proof. preserves_tac. Qed.

Lemma configure_settings_missing_storages path w w1 backend :
  STORAGE_BACKEND (settings w) = Some backend →
  PyStr.startswith backend "storages." = true →
  import_env w "storages" = NotFound →
  through_release_timeout path w = (Ok tt, w1) →
  _configure_settings path w =
  (Raise (ImproperlyConfigured (MSG_STORAGES backend)),
   with_settings (set_DEFAULT_FILE_STORAGE backend (settings w1)) w1).
Proof.
  intros Hb Hpre Henv Hrun. rewrite split_at_media_storage.
  rewrite (bind_run_Ok _ _ _ _ _ Hrun).
  apply storage_before_media_storage in Hrun. injection Hrun as Hb1 _ Henv1.
  apply bind_run_Raise, media_storage_missing_storages; congruence.
Qed.

(** C7: when [STORAGE_BACKEND] is set and starts with ["storages."] while the
    [storages] package cannot be found, the media-storage step raises
    [ImproperlyConfigured] with a message that contains
    ["pip install django-storages"]; a run of the callback that gets as far as
    this step ends with that exception. *)
Theorem C7_missing_django_storages w backend :
  STORAGE_BACKEND (settings w) = Some backend →
  PyStr.startswith backend "storages." = true →
  import_env w "storages" = NotFound →
  PyStr.contains "pip install django-storages" (MSG_STORAGES backend) = true ∧
  (∃ w', media_storage w = (Raise (ImproperlyConfigured (MSG_STORAGES backend)), w')) ∧
  (∀ path w1, through_release_timeout path w = (Ok tt, w1) →
     ∃ w', _configure_settings path w =
           (Raise (ImproperlyConfigured (MSG_STORAGES backend)), w')).
Proof.
  intros Hb Hpre Henv. split_and!.
  - apply MSG_STORAGES_instructs.
  - eexists. by apply media_storage_missing_storages.
  - intros path w1 Hrun. eexists. by apply configure_settings_missing_storages.
Qed.

(** C10: with [STORAGE_BACKEND] set, the media-storage step writes it to
    [DEFAULT_FILE_STORAGE] first, so the field holds it in the world the step
    leaves behind, whether the step returns or raises.  In particular, when the
    step fails on the missing [storages] package, the world that comes with the
    exception differs from the input in [DEFAULT_FILE_STORAGE]; the same is
    true of a run of the callback that gets as far as this step. *)
Theorem C10_assignment_survives_the_error w backend :
  STORAGE_BACKEND (settings w) = Some backend →
  (∀ r w', media_storage w = (r, w') →
           DEFAULT_FILE_STORAGE (settings w') = backend) ∧
  (PyStr.startswith backend "storages." = true →
   import_env w "storages" = NotFound →
   media_storage w =
   (Raise (ImproperlyConfigured (MSG_STORAGES backend)),
    with_settings (set_DEFAULT_FILE_STORAGE backend (settings w)) w) ∧
   (∀ path w1, through_release_timeout path w = (Ok tt, w1) →
      ∃ w', _configure_settings path w =
            (Raise (ImproperlyConfigured (MSG_STORAGES backend)), w') ∧
            DEFAULT_FILE_STORAGE (settings w') = backend)).
Proof.
  intros Hb. split.
  - intros r w'. by apply media_storage_assigns_first.
  - intros Hpre Henv. split; [by apply media_storage_missing_storages | ].
    intros path w1 Hrun. eexists. split.
    + by apply configure_settings_missing_storages.
    + done.
Qed.

Lemma storage_config_warning_fires w :
  STORAGE_CONFIG (settings w) ≠ ∅ → STORAGE_BACKEND (settings w) = None →
  storage_config_warning w = (Ok tt, with_warning MSG_STORAGE_CONFIG w).
Proof.
  intros Hcfg Hb. unfold storage_config_warning, bind, get_settings.
  rewrite Hb. rewrite (bool_decide_false (is_Some None)) by by intros [? ?].
  destruct (Nat.eqb_spec (size (STORAGE_CONFIG (settings w))) 0) as [Hsz|Hsz].
  - by apply map_size_empty_iff in Hsz.
  - done.
Qed.

(** C8: with a non-empty [STORAGE_CONFIG] and no [STORAGE_BACKEND], the
    media-storage block does nothing, the check that follows records the
    warning and returns normally, and the two together change no setting and
    nothing else in the world besides the warning log.  A run of the callback
    that gets as far as these statements carries on with the SSO and plugin
    steps from that world. *)
Theorem C8_storage_config_without_backend w :
  STORAGE_CONFIG (settings w) ≠ ∅ → STORAGE_BACKEND (settings w) = None →
  media_storage w = (Ok tt, w) ∧
  storage_config_warning w = (Ok tt, with_warning MSG_STORAGE_CONFIG w) ∧
  (∃ w', (media_storage ;;; storage_config_warning) w = (Ok tt, w') ∧
         settings w' = settings w ∧ fs w' = fs w ∧ import_env w' = import_env w ∧
         storages_utils_setting w' = storages_utils_setting w ∧
         warnings_log w' = warnings_log w ++ [MSG_STORAGE_CONFIG]) ∧
  (∀ path w1, through_release_timeout path w = (Ok tt, w1) →
     through_storage_warning path w = (Ok tt, with_warning MSG_STORAGE_CONFIG w1) ∧
     _configure_settings path w = (sso ;;; plugins) (with_warning MSG_STORAGE_CONFIG w1)).
Proof.
  intros Hcfg Hb.
  pose proof (media_storage_no_backend _ Hb) as Hmedia.
  pose proof (storage_config_warning_fires _ Hcfg Hb) as Hwarn.
  split_and!; [done | done | | ].
  - eexists. split.
    { by rewrite (bind_run_Ok _ _ _ _ _ Hmedia). }
    split_and!; reflexivity.
  - intros path w1 Hrun.
    pose proof (storage_before_media_storage _ _ _ _ Hrun) as Hkeep.
    injection Hkeep as Hb1 Hcfg1 _.
    rewrite <- Hb1 in Hb. rewrite <- Hcfg1 in Hcfg.
    pose proof (media_storage_no_backend _ Hb) as Hmedia1.
    pose proof (storage_config_warning_fires _ Hcfg Hb) as Hwarn1.
    assert (Hthrough : through_storage_warning path w =
                       (Ok tt, with_warning MSG_STORAGE_CONFIG w1)).
    { unfold through_storage_warning, through_media_storage.
      rewrite (bind_run_Ok _ _ _ tt w1); [done | ].
      by rewrite (bind_run_Ok _ _ _ _ _ Hrun). }
    split; [done | ].
    rewrite split_at_sso. by rewrite (bind_run_Ok _ _ _ _ _ Hthrough).
Qed.

(** ** SSO *)

Lemma sso_enabled_run w name :
  SOCIAL_AUTH_ENABLED (settings w) = true →
  get_sso_backend_name (SOCIAL_AUTH_MODULE (settings w)) = Ok name →
  sso w =
  (Ok tt,
   with_settings
     (set_LOGIN_URL ("/" +:+ BASE_PATH (settings w) +:+ "login/" +:+ name +:+ "/")
        (set_AUTHENTICATION_BACKENDS
           (SOCIAL_AUTH_MODULE (settings w) :: AUTHENTICATION_BACKENDS (settings w))
           (set_INSTALLED_APPS (INSTALLED_APPS (settings w) ++ ["social_django"])
              (settings w)))) w).
Proof.
  intros Hon Hname. unfold sso, bind, get_settings, modify_settings, lift.
  rewrite Hon. cbn. by rewrite Hname.
Qed.

Lemma sso_resolver_raises w e :
  SOCIAL_AUTH_ENABLED (settings w) = true →
  get_sso_backend_name (SOCIAL_AUTH_MODULE (settings w)) = Raise e →
  (sso w).1 = Raise e.
Proof.
  intros Hon Hname. unfold sso, bind, get_settings, modify_settings, lift.
  rewrite Hon. cbn. by rewrite Hname.
Qed.

Lemma sso_inputs_before_sso path :
  keeps (λ w, (SOCIAL_AUTH_ENABLED (settings w), SOCIAL_AUTH_MODULE (settings w),
               BASE_PATH (settings w), AUTHENTICATION_BACKENDS (settings w),
               plugin_args (settings w)))
    (through_storage_warning path).
Proof. preserves_tac. Qed.

(** C5, as the code has it: with [SOCIAL_AUTH_ENABLED] true and a resolver that
    names the backend, the SSO step returns normally, the SSO backend
    [SOCIAL_AUTH_MODULE] is the first element of [AUTHENTICATION_BACKENDS],
    ["social_django"] is the last element of [INSTALLED_APPS], and [LOGIN_URL]
    is a slash followed by [BASE_PATH], ["login/"], the resolved name and a
    slash.  When a whole run of the callback returns, the resolver did name
    the backend, [AUTHENTICATION_BACKENDS] and [LOGIN_URL] are as above, and
    [INSTALLED_APPS] is what [load_plugins] made of the list that ends in
    ["social_django"]. *)
Theorem C5_sso_injection w :
  SOCIAL_AUTH_ENABLED (settings w) = true →
  (∀ name, get_sso_backend_name (SOCIAL_AUTH_MODULE (settings w)) = Ok name →
     ∃ w1, sso w = (Ok tt, w1) ∧
           AUTHENTICATION_BACKENDS (settings w1) =
             SOCIAL_AUTH_MODULE (settings w) :: AUTHENTICATION_BACKENDS (settings w) ∧
           INSTALLED_APPS (settings w1) = INSTALLED_APPS (settings w) ++ ["social_django"] ∧
           LOGIN_URL (settings w1) =
             "/" +:+ BASE_PATH (settings w) +:+ "login/" +:+ name +:+ "/") ∧
  (∀ path w', _configure_settings path w = (Ok tt, w') →
     ∃ name, get_sso_backend_name (SOCIAL_AUTH_MODULE (settings w)) = Ok name ∧
             AUTHENTICATION_BACKENDS (settings w') =
               SOCIAL_AUTH_MODULE (settings w) :: AUTHENTICATION_BACKENDS (settings w) ∧
             LOGIN_URL (settings w') =
               "/" +:+ BASE_PATH (settings w) +:+ "login/" +:+ name +:+ "/" ∧
             INSTALLED_APPS (settings w') =
               pl_installed_apps
                 (load_plugins
                    (plugin_args
                       (set_INSTALLED_APPS
                          (INSTALLED_APPS (settings w) ++ ["social_django"])
                          (settings w)))).2).
Proof.
  intros Hon. split.
  - intros name Hname. eexists. split; [by apply sso_enabled_run | done].
  - intros path w'. rewrite split_at_sso. intros Hrun.
    apply bind_Ok_inv in Hrun as ([] & w1 & Hpre & Hrest).
    apply bind_Ok_inv in Hrest as ([] & w2 & Hsso & Hplug).
    apply sso_inputs_before_sso in Hpre.
    injection Hpre as Hon1 Hmod1 Hbase1 Hauth1 Hp Ha Hc Hv Hm Ho.
    rewrite <- Hon1 in Hon. rewrite <- Hmod1, <- Hbase1, <- Hauth1.
    destruct (get_sso_backend_name (SOCIAL_AUTH_MODULE (settings w1)))
      as [name|e] eqn:Hname.
    + exists name. split; [done | ].
      rewrite (sso_enabled_run _ _ Hon Hname) in Hsso. injection Hsso as <-.
      unfold plugins, plugin_args in Hplug |- *. cbn in Hplug |- *. rewrite <- Hp, <- Ha, <- Hc, <- Hv, <- Hm, <- Ho.
      destruct (load_plugins _) as [r a]. by injection Hplug as _ <-.
    + apply (sso_resolver_raises _ _ Hon) in Hname. by rewrite Hsso in Hname.
Qed.

(** ** [import storages.utils] when only the submodule is missing *)

Lemma media_storage_submodule_missing w backend :
  STORAGE_BACKEND (settings w) = Some backend →
  PyStr.startswith backend "storages." = true →
  import_env w "storages" = Importable →
  import_env w "storages.utils" = NotFound →
  (media_storage w).1 = Raise (ModuleNotFoundError "storages.utils").
Proof.
  intros Hb Hpre Henv Hsub.
  unfold media_storage, bind, get_settings, modify_settings, try_except.
  rewrite Hb, Hpre. simpl.
  unfold import_storages_utils, import_one. by rewrite Henv, Hsub.
Qed.

(** * Further properties of the callback *)

(** ** What a run leaves alone *)

Lemma read_only_kept path :
  keeps (λ w, (GIT_ROOT (settings w), JOBS_ROOT (settings w), MEDIA_ROOT (settings w),
               STATIC_ROOT (settings w), METRICS_ENABLED (settings w),
               PAGINATE_COUNT (settings w), RELEASE_CHECK_URL (settings w),
               RELEASE_CHECK_TIMEOUT (settings w), STORAGE_BACKEND (settings w),
               STORAGE_CONFIG (settings w), SOCIAL_AUTH_ENABLED (settings w),
               SOCIAL_AUTH_MODULE (settings w), BASE_PATH (settings w),
               VERSION (settings w), import_env w))
    (_configure_settings path).
Proof. preserves_tac. Qed.

(** X1: The callback writes none of the settings it only reads, and it does not
    touch the import system, however the run ends. *)
Theorem configure_settings_read_only path w :
  let w' := (_configure_settings path w).2 in
  GIT_ROOT (settings w') = GIT_ROOT (settings w) ∧
  JOBS_ROOT (settings w') = JOBS_ROOT (settings w) ∧
  MEDIA_ROOT (settings w') = MEDIA_ROOT (settings w) ∧
  STATIC_ROOT (settings w') = STATIC_ROOT (settings w) ∧
  METRICS_ENABLED (settings w') = METRICS_ENABLED (settings w) ∧
  PAGINATE_COUNT (settings w') = PAGINATE_COUNT (settings w) ∧
  RELEASE_CHECK_URL (settings w') = RELEASE_CHECK_URL (settings w) ∧
  RELEASE_CHECK_TIMEOUT (settings w') = RELEASE_CHECK_TIMEOUT (settings w) ∧
  STORAGE_BACKEND (settings w') = STORAGE_BACKEND (settings w) ∧
  STORAGE_CONFIG (settings w') = STORAGE_CONFIG (settings w) ∧
  SOCIAL_AUTH_ENABLED (settings w') = SOCIAL_AUTH_ENABLED (settings w) ∧
  SOCIAL_AUTH_MODULE (settings w') = SOCIAL_AUTH_MODULE (settings w) ∧
  BASE_PATH (settings w') = BASE_PATH (settings w) ∧
  VERSION (settings w') = VERSION (settings w) ∧
  import_env w' = import_env w.
Proof.
  destruct (_configure_settings path w) as [r w'] eqn:Hrun. simpl.
  apply read_only_kept in Hrun. by simplify_eq.
Qed.

Lemma settings_path_after_first_statement :
  keeps (λ w, SETTINGS_PATH (settings w))
    (storage_directories ;;; databases ;;; pagination ;;; authentication ;;;
     release_check_url ;;; release_check_timeout ;;; media_storage ;;;
     storage_config_warning ;;; sso ;;; plugins).
Proof. preserves_tac. Qed.

(** X2: Whatever [SETTINGS_PATH] was and however the run ends, the settings
    object carries the configuration path afterwards. *)
Theorem configure_settings_records_path path w :
  SETTINGS_PATH (settings (_configure_settings path w).2) = Some path.
Proof.
  destruct (_configure_settings path w) as [r w'] eqn:Hrun. simpl.
  unfold _configure_settings in Hrun.
  apply bind_cases in Hrun as [(e & [=] & _) | ([] & w1 & [= <-] & Hrest)].
  by apply settings_path_after_first_statement in Hrest.
Qed.

(** ** Warnings *)

Lemma storage_config_warning_cases w :
  storage_config_warning w = (Ok tt, w) ∨
  (STORAGE_CONFIG (settings w) ≠ ∅ ∧ STORAGE_BACKEND (settings w) = None ∧
   storage_config_warning w = (Ok tt, with_warning MSG_STORAGE_CONFIG w)).
Proof.
  unfold storage_config_warning, bind, get_settings.
  destruct (Nat.eqb_spec (size (STORAGE_CONFIG (settings w))) 0) as [Hsz|Hsz];
    [by left | ].
  destruct (STORAGE_BACKEND (settings w)) as [b|] eqn:Hb.
  - left. by rewrite bool_decide_true by eauto.
  - right. rewrite (bool_decide_false (is_Some None)) by by intros [? ?].
    split_and!; [ | done | done].
    intros Hempty. by rewrite Hempty, map_size_empty in Hsz.
Qed.

Lemma warnings_before_storage_warning path :
  keeps (λ w, (warnings_log w, STORAGE_CONFIG (settings w), STORAGE_BACKEND (settings w)))
    (through_media_storage path).
Proof. preserves_tac. Qed.

Lemma warnings_after_storage_warning :
  keeps (λ w, warnings_log w) (sso ;;; plugins).
Proof. preserves_tac. Qed.

(** X3: The callback logs at most one warning, and if the log grew at all then
    [STORAGE_CONFIG] is non-empty, [STORAGE_BACKEND] is [None] and the new entry
    is the message about the ignored storage configuration. *)
Theorem configure_settings_warns_only_without_backend path w :
  warnings_log (_configure_settings path w).2 ≠ warnings_log w →
  STORAGE_CONFIG (settings w) ≠ ∅ ∧ STORAGE_BACKEND (settings w) = None ∧
  warnings_log (_configure_settings path w).2 = warnings_log w ++ [MSG_STORAGE_CONFIG].
Proof.
  destruct (_configure_settings path w) as [r w'] eqn:Hrun. simpl.
  rewrite split_at_storage_warning in Hrun. intros Hlog.
  apply bind_cases in Hrun as [(e & Hpre & _) | ([] & w1 & Hpre & Hrest)];
    apply warnings_before_storage_warning in Hpre; injection Hpre as Hl Hc Hb.
  - congruence.
  - rewrite <- Hl, <- Hc, <- Hb in *.
    destruct (storage_config_warning_cases w1) as [Hno | (Hcfg & Hnone & Hyes)].
    + rewrite (bind_run_Ok _ _ _ _ _ Hno) in Hrest.
      by apply warnings_after_storage_warning in Hrest.
    + rewrite (bind_run_Ok _ _ _ _ _ Hyes) in Hrest.
      by apply warnings_after_storage_warning in Hrest.
Qed.

(** ** Page sizes after a normal return *)

(** X4: When the callback returns normally, [PAGINATE_COUNT] is a member of
    [PER_PAGE_DEFAULTS], whether it was listed before or not, and every page
    size that was listed still is. *)
Theorem configure_settings_lists_page_size path w w' :
  _configure_settings path w = (Ok tt, w') →
  PAGINATE_COUNT (settings w') ∈ PER_PAGE_DEFAULTS (settings w') ∧
  ∀ x, x ∈ PER_PAGE_DEFAULTS (settings w) → x ∈ PER_PAGE_DEFAULTS (settings w').
Proof.
  intros Hrun.
  destruct (decide (PAGINATE_COUNT (settings w) ∈ PER_PAGE_DEFAULTS (settings w)))
    as [Hin|Hout].
  - pose proof (configure_settings_keeps_listed_page_size _ _ _ _ Hin Hrun) as Hl.
    apply read_only_kept in Hrun. simplify_eq. rewrite Hl. split; [congruence | done].
  - destruct (configure_settings_adds_page_size _ _ _ Hout Hrun) as [-> ->].
    split.
    + rewrite sorted_Permutation. set_solver.
    + intros x Hx. rewrite sorted_Permutation. set_solver.
Qed.

(** ** Failures do not undo earlier statements *)

(** X5: When the authentication check fails on settings whose page size was not
    listed, the exception comes with a settings object whose
    [PER_PAGE_DEFAULTS] has already been extended and sorted. *)
Theorem failed_authentication_keeps_pagination path w w1 :
  REQUIRED_BACKEND ∉ AUTHENTICATION_BACKENDS (settings w) →
  PAGINATE_COUNT (settings w) ∉ PER_PAGE_DEFAULTS (settings w) →
  through_databases path w = (Ok tt, w1) →
  ∃ w', _configure_settings path w = (Raise (ImproperlyConfigured MSG_BACKEND), w') ∧
        PER_PAGE_DEFAULTS (settings w') =
        sorted (PER_PAGE_DEFAULTS (settings w) ++ [PAGINATE_COUNT (settings w)]).
Proof.
  intros Hauth Hout Hpre.
  pose proof (page_sizes_before_pagination _ _ _ _ Hpre) as Hkeep.
  injection Hkeep as Hpc Hl. rewrite <- Hpc, <- Hl in Hout |- *.
  pose proof (pagination_absent _ Hout) as Hstep.
  assert (Hthrough : through_pagination path w = pagination w1).
  { unfold through_pagination. by rewrite (bind_run_Ok _ _ _ _ _ Hpre). }
  rewrite Hstep in Hthrough.
  eexists. split.
  { rewrite split_at_authentication, (bind_run_Ok _ _ _ _ _ Hthrough).
    apply bind_run_Raise, authentication_missing.
    by rewrite (backends_before_authentication _ _ _ _ Hthrough). }
  reflexivity.
Qed.

(** ** Databases: missing keys and repeated runs *)

(** X6: With metrics enabled and no engine string to look at, the databases step
    raises [KeyError] for the first key that is missing and changes nothing; a
    run whose directory step succeeded ends with that [KeyError]. *)
Theorem databases_missing_key w :
  METRICS_ENABLED (settings w) = true →
  engine_of (settings w) = None →
  let key := match DATABASES (settings w) !! "default" with
             | None => "default"
             | Some _ => "ENGINE"
             end in
  databases w = (Raise (KeyError key), w) ∧
  ∀ path w1, through_directories path w = (Ok tt, w1) →
             _configure_settings path w = (Raise (KeyError key), w1).
Proof.
  intros Hon Heng key.
  assert (Hstep : ∀ w1, METRICS_ENABLED (settings w1) = METRICS_ENABLED (settings w) →
                        DATABASES (settings w1) = DATABASES (settings w) →
                        databases w1 = (Raise (KeyError key), w1)).
  { intros w1 Hon1 Hdb1. unfold databases, bind, get_settings, getitem.
    rewrite Hon1, Hon, Hdb1. unfold engine_of in Heng. unfold key.
    destruct (DATABASES (settings w) !! "default") as [d|]; simpl in *; [ | done].
    by rewrite Heng. }
  split; [by apply Hstep | ].
  intros path w1 Hpre. rewrite split_at_databases, (bind_run_Ok _ _ _ _ _ Hpre).
  apply databases_before_databases in Hpre. injection Hpre as Hon1 Hdb1.
  by apply bind_run_Raise, Hstep.
Qed.


(** ** Media storage: the import and the monkey-patch *)

Lemma media_storage_plain_backend w backend :
  STORAGE_BACKEND (settings w) = Some backend →
  PyStr.startswith backend "storages." = false →
  media_storage w =
  (Ok tt, with_settings (set_DEFAULT_FILE_STORAGE backend (settings w)) w).
Proof.
  intros Hb Hpre. unfold media_storage, bind, get_settings, modify_settings.
  by rewrite Hb, Hpre.
Qed.

Lemma media_storage_imported w backend :
  STORAGE_BACKEND (settings w) = Some backend →
  PyStr.startswith backend "storages." = true →
  import_storages_utils (import_env w) = Ok tt →
  media_storage w =
  (Ok tt,
   with_storages_utils_setting NautobotSetting
     (with_settings (set_DEFAULT_FILE_STORAGE backend (settings w)) w)).
Proof.
  intros Hb Hpre Himp.
  unfold media_storage, bind, get_settings, modify_settings, try_except.
  rewrite Hb, Hpre. simpl. by rewrite Himp.
Qed.

Lemma media_storage_import_fails w backend e :
  STORAGE_BACKEND (settings w) = Some backend →
  PyStr.startswith backend "storages." = true →
  import_storages_utils (import_env w) = Raise e →
  media_storage w =
  (Raise (match e with
          | ModuleNotFoundError name =>
              if String.eqb name "storages"
              then ImproperlyConfigured (MSG_STORAGES backend) else e
          | _ => e
          end),
   with_settings (set_DEFAULT_FILE_STORAGE backend (settings w)) w).
Proof.
  intros Hb Hpre Himp.
  unfold media_storage, bind, get_settings, modify_settings, try_except.
  rewrite Hb, Hpre. simpl. rewrite Himp.
  destruct e; simpl; try done. by destruct (String.eqb _ _).
Qed.

(** X8: An import of [storages.utils] that fails with anything but
    [ModuleNotFoundError] for ["storages"] is not translated: the step raises
    that very exception, after [DEFAULT_FILE_STORAGE] was assigned and with
    [storages.utils.setting] left alone. *)
Theorem media_storage_reraises w backend e :
  STORAGE_BACKEND (settings w) = Some backend →
  PyStr.startswith backend "storages." = true →
  import_storages_utils (import_env w) = Raise e →
  e ≠ ModuleNotFoundError "storages" →
  media_storage w =
  (Raise e, with_settings (set_DEFAULT_FILE_STORAGE backend (settings w)) w).
Proof.
  intros Hb Hpre Himp Hne.
  rewrite (media_storage_import_fails _ _ _ Hb Hpre Himp).
  destruct e as [| |name| |]; try done.
  destruct (String.eqb_spec name "storages") as [->|]; done.
Qed.

Lemma patch_before_media_storage path :
  keeps (λ w, (storages_utils_setting w, STORAGE_BACKEND (settings w), import_env w))
    (through_release_timeout path).
Proof. preserves_tac. Qed.

Lemma patch_after_media_storage :
  keeps (λ w, storages_utils_setting w) (storage_config_warning ;;; sso ;;; plugins).
Proof. preserves_tac. Qed.

(** X9: For a run that gets as far as the media-storage block with
    [storages.utils.setting] still the library's own function, the function is
    replaced by the end of the run exactly when [STORAGE_BACKEND] starts with
    ["storages."] and [import storages.utils] succeeded. *)
Theorem monkeypatch_iff_import_succeeded path w w1 :
  through_release_timeout path w = (Ok tt, w1) →
  storages_utils_setting w = StoragesOwnSetting →
  storages_utils_setting (_configure_settings path w).2 = NautobotSetting ↔
  ∃ backend, STORAGE_BACKEND (settings w) = Some backend ∧
             PyStr.startswith backend "storages." = true ∧
             import_storages_utils (import_env w) = Ok tt.
Proof.
  intros Hpre Hown.
  destruct (_configure_settings path w) as [r w'] eqn:Hrun. simpl.
  rewrite split_at_media_storage, (bind_run_Ok _ _ _ _ _ Hpre) in Hrun.
  apply patch_before_media_storage in Hpre. injection Hpre as Hs Hb Henv.
  rewrite <- Hs in Hown. rewrite <- Hb, <- Henv. clear Hs Hb Henv.
  assert (Hlast : ∀ r1 w2, media_storage w1 = (r1, w2) →
                           storages_utils_setting w' = storages_utils_setting w2).
  { intros r1 w2 Hstep.
    apply bind_cases in Hrun as [(e & Hm & _) | ([] & w3 & Hm & Hrest)];
      rewrite Hstep in Hm; simplify_eq; [done | ].
    by apply patch_after_media_storage in Hrest. }
  destruct (STORAGE_BACKEND (settings w1)) as [backend|] eqn:Hb.
  2:{ rewrite (Hlast _ _ (media_storage_no_backend _ Hb)), Hown.
      split; [done | by intros (b & [=] & _)]. }
  destruct (PyStr.startswith backend "storages.") eqn:Hsw.
  2:{ rewrite (Hlast _ _ (media_storage_plain_backend _ _ Hb Hsw)). simpl.
      rewrite Hown. split; [done | intros (b & [= <-] & ? & _); congruence]. }
  destruct (import_storages_utils (import_env w1)) as [[]|e] eqn:Himp.
  - rewrite (Hlast _ _ (media_storage_imported _ _ Hb Hsw Himp)). simpl.
    split; [eauto | done].
  - rewrite (Hlast _ _ (media_storage_import_fails _ _ _ Hb Hsw Himp)). simpl.
    rewrite Hown. split; [done | by intros (b & _ & _ & [=])].
Qed.

(** ** SSO: disabled, repeated, and failing half-way *)

Lemma sso_disabled w :
  SOCIAL_AUTH_ENABLED (settings w) = false → sso w = (Ok tt, w).
Proof. intros Hoff. unfold sso, bind, get_settings. by rewrite Hoff. Qed.

Lemma sso_outputs_before_sso path :
  keeps (λ w, (SOCIAL_AUTH_ENABLED (settings w), AUTHENTICATION_BACKENDS (settings w),
               LOGIN_URL (settings w), plugin_args (settings w)))
    (through_storage_warning path).
Proof. preserves_tac. Qed.

Lemma sso_outputs_after_sso :
  keeps (λ w, (AUTHENTICATION_BACKENDS (settings w), LOGIN_URL (settings w))) plugins.
Proof. preserves_tac. Qed.

(** X10: With SSO disabled the callback leaves [AUTHENTICATION_BACKENDS] and
    [LOGIN_URL] as they were, however the run ends, and a run that returns has
    handed [INSTALLED_APPS] to [load_plugins] without ["social_django"]. *)
Theorem configure_settings_without_sso path w :
  SOCIAL_AUTH_ENABLED (settings w) = false →
  AUTHENTICATION_BACKENDS (settings (_configure_settings path w).2) =
    AUTHENTICATION_BACKENDS (settings w) ∧
  LOGIN_URL (settings (_configure_settings path w).2) = LOGIN_URL (settings w) ∧
  ((_configure_settings path w).1 = Ok tt →
   INSTALLED_APPS (settings (_configure_settings path w).2) =
   pl_installed_apps (load_plugins (plugin_args (settings w))).2).
Proof.
  intros Hoff. destruct (_configure_settings path w) as [r w'] eqn:Hrun. simpl.
  rewrite split_at_sso in Hrun.
  apply bind_cases in Hrun as [(e & Hpre & ->) | ([] & w1 & Hpre & Hrest)];
    apply sso_outputs_before_sso in Hpre;
    injection Hpre as Hon1 Hauth1 Hurl1 Hp Ha Hc Hv Hm Ho.
  - done.
  - rewrite <- Hon1 in Hoff.
    rewrite (bind_run_Ok _ _ _ _ _ (sso_disabled _ Hoff)) in Hrest.
    pose proof (sso_outputs_after_sso _ _ _ Hrest) as Hkeep.
    injection Hkeep as Hauth Hurl.
    split_and!; [congruence | congruence | ].
    intros ->. unfold plugins, plugin_args in Hrest |- *.
    rewrite <- Hp, <- Ha, <- Hc, <- Hv, <- Hm, <- Ho.
    destruct (load_plugins _) as [r a]. by injection Hrest as _ <-.
Qed.

Lemma configure_settings_sso_backends path w w' :
  SOCIAL_AUTH_ENABLED (settings w) = true →
  _configure_settings path w = (Ok tt, w') →
  AUTHENTICATION_BACKENDS (settings w') =
  SOCIAL_AUTH_MODULE (settings w) :: AUTHENTICATION_BACKENDS (settings w).
Proof.
  intros Hon. rewrite split_at_sso. intros Hrun.
  apply bind_Ok_inv in Hrun as ([] & w1 & Hpre & Hrest).
  apply bind_Ok_inv in Hrest as ([] & w2 & Hsso & Hplug).
  apply sso_inputs_before_sso in Hpre.
  injection Hpre as Hon1 Hmod1 _ Hauth1 _ _ _ _ _ _.
  rewrite <- Hon1 in Hon. rewrite <- Hmod1, <- Hauth1.
  apply sso_outputs_after_sso in Hplug. injection Hplug as -> _.
  destruct (get_sso_backend_name (SOCIAL_AUTH_MODULE (settings w1)))
    as [name|e] eqn:Hname.
  - rewrite (sso_enabled_run _ _ Hon Hname) in Hsso. by injection Hsso as <-.
  - apply (sso_resolver_raises _ _ Hon) in Hname. by rewrite Hsso in Hname.
Qed.

(** X11: The SSO block is not idempotent: after two runs of the callback that both
    return, the SSO backend is in [AUTHENTICATION_BACKENDS] twice, in front of
    the original list. *)
Theorem sso_backend_inserted_on_every_run path1 path2 w w1 w2 :
  SOCIAL_AUTH_ENABLED (settings w) = true →
  _configure_settings path1 w = (Ok tt, w1) →
  _configure_settings path2 w1 = (Ok tt, w2) →
  AUTHENTICATION_BACKENDS (settings w2) =
  SOCIAL_AUTH_MODULE (settings w) :: SOCIAL_AUTH_MODULE (settings w)
    :: AUTHENTICATION_BACKENDS (settings w).
Proof.
  intros Hon Hrun1 Hrun2.
  pose proof (configure_settings_sso_backends _ _ _ Hon Hrun1) as Hauth1.
  assert (Hkeep : keeps (λ w, (SOCIAL_AUTH_ENABLED (settings w),
                               SOCIAL_AUTH_MODULE (settings w)))
            (_configure_settings path1)) by preserves_tac.
  apply Hkeep in Hrun1. injection Hrun1 as Hon1 Hmod1.
  rewrite <- Hon1 in Hon.
  rewrite (configure_settings_sso_backends _ _ _ Hon Hrun2).
  by rewrite Hauth1, Hmod1.
Qed.

(** X12: When the resolver raises, the SSO block raises the same exception after
    it has already appended ["social_django"] and inserted the backend;
    [LOGIN_URL] is the only one of the three settings that is still as
    before. *)
Theorem sso_resolver_failure_is_partial w e :
  SOCIAL_AUTH_ENABLED (settings w) = true →
  get_sso_backend_name (SOCIAL_AUTH_MODULE (settings w)) = Raise e →
  ∃ w', sso w = (Raise e, w') ∧
        INSTALLED_APPS (settings w') = INSTALLED_APPS (settings w) ++ ["social_django"] ∧
        AUTHENTICATION_BACKENDS (settings w') =
          SOCIAL_AUTH_MODULE (settings w) :: AUTHENTICATION_BACKENDS (settings w) ∧
        LOGIN_URL (settings w') = LOGIN_URL (settings w).
Proof.
  intros Hon Hname. unfold sso, bind, get_settings, modify_settings, lift.
  rewrite Hon. cbn. rewrite Hname. eexists. split; [reflexivity | done].
Qed.

(** ** Storage directories *)

Lemma ensure_dir_Ok `{!OSLaws FS} p w w' :
  ensure_dir p w = (Ok tt, w') →
  os_path_exists p (fs w') = true ∧
  (∀ q, os_path_exists q (fs w) = true → os_path_exists q (fs w') = true) ∧
  settings w' = settings w.
Proof.
  unfold ensure_dir. destruct (os_path_exists p (fs w)) eqn:Hex.
  - by intros [= <-].
  - destruct (os_makedirs p (fs w)) as [r f] eqn:Hmk. intros [= -> <-]. simpl.
    split_and!; [by eapply makedirs_creates | | done].
    intros q Hq. by eapply makedirs_keeps.
Qed.

Lemma ensure_file_Ok `{!OSLaws FS} p w w' :
  ensure_file p w = (Ok tt, w') →
  os_path_exists p (fs w') = true ∧
  (∀ q, os_path_exists q (fs w) = true → os_path_exists q (fs w') = true) ∧
  settings w' = settings w.
Proof.
  unfold ensure_file. destruct (os_path_exists p (fs w)) eqn:Hex.
  - by intros [= <-].
  - destruct (Path_touch p (fs w)) as [r f] eqn:Hmk. intros [= -> <-]. simpl.
    split_and!; [by eapply touch_creates | | done].
    intros q Hq. by eapply touch_keeps.
Qed.

Lemma storage_directories_existing w :
  Forall (λ p, os_path_exists p (fs w) = true) (storage_paths (settings w)) →
  storage_directories w = (Ok tt, w).
Proof.
  unfold storage_paths. rewrite !Forall_cons.
  intros (H1 & H2 & H3 & H4 & H5 & H6 & H7 & _).
  unfold storage_directories, bind, get_settings, ensure_dir, ensure_file.
  by rewrite H1, H2, H3, H4, H5, H6, H7.
Qed.

Lemma storage_directories_creates `{!OSLaws FS} w w1 :
  storage_directories w = (Ok tt, w1) →
  Forall (λ p, os_path_exists p (fs w1) = true) (storage_paths (settings w)) ∧
  settings w1 = settings w.
Proof.
  unfold storage_directories. intros Hrun.
  apply bind_Ok_inv in Hrun as (s & w0 & [= <- <-] & Hrun).
  apply bind_Ok_inv in Hrun as ([] & wa & (Ha & _ & Hsa)%ensure_dir_Ok & Hrun).
  apply bind_Ok_inv in Hrun as ([] & wb & (Hb & Hab & Hsb)%ensure_dir_Ok & Hrun).
  apply bind_Ok_inv in Hrun as ([] & wc & (Hc & Hbc & Hsc)%ensure_file_Ok & Hrun).
  apply bind_Ok_inv in Hrun as ([] & wd & (Hd & Hcd & Hsd)%ensure_dir_Ok & Hrun).
  apply bind_Ok_inv in Hrun as ([] & we & (He & Hde & Hse)%ensure_dir_Ok & Hrun).
  apply bind_Ok_inv in Hrun as ([] & wf & (Hf & Hef & Hsf)%ensure_dir_Ok & Hrun).
  apply ensure_dir_Ok in Hrun as (Hg & Hfg & Hsg).
  split; [ | congruence].
  unfold storage_paths. repeat apply Forall_cons_2; [ | | | | | | | done]; auto 10.
Qed.

(** X13: On a file system where a created path exists afterwards and creating one
    path removes no other, a storage-directories block that returned normally
    leaves every path it looks for in place. *)
Theorem storage_directories_ensures_paths `{!OSLaws FS} w w1 :
  storage_directories w = (Ok tt, w1) →
  ∀ p, p ∈ storage_paths (settings w1) → os_path_exists p (fs w1) = true.
Proof.
  intros (Hall & Hs)%storage_directories_creates p Hp.
  rewrite Hs in Hp. by eapply Forall_forall in Hall.
Qed.

(** X14: On such a file system the block is idempotent: run on the world it left
    behind, it returns normally without changing anything. *)
Theorem storage_directories_idempotent `{!OSLaws FS} w w1 :
  storage_directories w = (Ok tt, w1) →
  storage_directories w1 = (Ok tt, w1).
Proof.
  intros (Hall & Hs)%storage_directories_creates.
  apply storage_directories_existing. by rewrite Hs.
Qed.

Lemma roots_kept path :
  keeps (λ w, storage_paths (settings w)) (_configure_settings path).
Proof. preserves_tac. Qed.

Lemma fs_after_directories :
  keeps (λ w, fs w)
    (databases ;;; pagination ;;; authentication ;;; release_check_url ;;;
     release_check_timeout ;;; media_storage ;;; storage_config_warning ;;;
     sso ;;; plugins).
Proof. preserves_tac. Qed.

(** X15: On such a file system, once the callback has returned normally, a further
    run of the callback leaves the file system as it is, however that run
    ends. *)
Theorem configure_settings_creates_directories_once `{!OSLaws FS} path1 path2 w w1 :
  _configure_settings path1 w = (Ok tt, w1) →
  fs (_configure_settings path2 w1).2 = fs w1.
Proof.
  intros Hrun1.
  assert (Hall : Forall (λ p, os_path_exists p (fs w1) = true)
                   (storage_paths (settings w1))).
  { rewrite (roots_kept _ _ _ _ Hrun1).
    rewrite split_at_databases in Hrun1.
    apply bind_Ok_inv in Hrun1 as ([] & wa & Hdirs & Hrest).
    rewrite (fs_after_directories _ _ _ Hrest).
    by apply storage_directories_creates in Hdirs as [Hall _]. }
  destruct (_configure_settings path2 w1) as [r w2] eqn:Hrun2. simpl.
  rewrite split_at_databases in Hrun2.
  assert (Hdirs : through_directories path2 w1 =
                  (Ok tt, with_settings (set_SETTINGS_PATH path2 (settings w1)) w1)).
  { apply (storage_directories_existing
             (with_settings (set_SETTINGS_PATH path2 (settings w1)) w1)), Hall. }
  rewrite (bind_run_Ok _ _ _ _ _ Hdirs) in Hrun2.
  by apply fs_after_directories in Hrun2.
Qed.

(** ** When the callback returns *)

Lemma databases_Ok_engine w w1 :
  databases w = (Ok tt, w1) → METRICS_ENABLED (settings w) = true →
  ∃ e, engine_of (settings w) = Some e.
Proof.
  unfold databases, bind, get_settings, getitem, engine_of.
  intros Hrun Hon. rewrite Hon in Hrun.
  destruct (DATABASES (settings w) !! "default") as [d|]; simpl in *; [ | done].
  destruct (d !! "ENGINE") as [e|]; simpl in *; [eauto | done].
Qed.

Lemma checked_before_databases path :
  keeps (λ w, (METRICS_ENABLED (settings w), DATABASES (settings w)))
    (through_directories path).
Proof. preserves_tac. Qed.

Lemma checked_before_media_storage path :
  keeps (λ w, (STORAGE_BACKEND (settings w), import_env w)) (through_release_timeout path).
Proof. preserves_tac. Qed.

Lemma checked_before_sso path :
  keeps (λ w, (SOCIAL_AUTH_ENABLED (settings w), SOCIAL_AUTH_MODULE (settings w)))
    (through_storage_warning path).
Proof. preserves_tac. Qed.

(** X16: A normal return certifies every check of the callback on the settings it
    was given: the required backend is listed, the timeout is at least 3600, the
    engine string exists if metrics are enabled, [storages.utils] was imported
    if the storage backend lives in [storages], and the resolver named the SSO
    backend if SSO is enabled. *)
Theorem configure_settings_Ok_certifies path w w' :
  _configure_settings path w = (Ok tt, w') →
  REQUIRED_BACKEND ∈ AUTHENTICATION_BACKENDS (settings w) ∧
  3600 ≤ RELEASE_CHECK_TIMEOUT (settings w) ∧
  (METRICS_ENABLED (settings w) = true → ∃ e, engine_of (settings w) = Some e) ∧
  (∀ b, STORAGE_BACKEND (settings w) = Some b →
        PyStr.startswith b "storages." = true →
        import_storages_utils (import_env w) = Ok tt) ∧
  (SOCIAL_AUTH_ENABLED (settings w) = true →
   ∃ name, get_sso_backend_name (SOCIAL_AUTH_MODULE (settings w)) = Ok name).
Proof.
  intros Hrun. split_and!.
  - rewrite split_at_authentication in Hrun.
    apply bind_Ok_inv in Hrun as ([] & w1 & Hpre & Hrest).
    apply bind_Ok_inv in Hrest as ([] & w2 & Hstep & _).
    rewrite <- (backends_before_authentication _ _ _ _ Hpre).
    destruct (decide (REQUIRED_BACKEND ∈ AUTHENTICATION_BACKENDS (settings w1)))
      as [Hin|Hout]; [done | ].
    by rewrite (authentication_missing _ Hout) in Hstep.
  - rewrite split_at_release_timeout in Hrun.
    apply bind_Ok_inv in Hrun as ([] & w1 & Hpre & Hrest).
    apply bind_Ok_inv in Hrest as ([] & w2 & Hstep & _).
    rewrite <- (timeout_before_release_timeout _ _ _ _ Hpre).
    destruct (Z.lt_ge_cases (RELEASE_CHECK_TIMEOUT (settings w1)) 3600)
      as [Hlt|Hge]; [ | done].
    by rewrite (release_check_timeout_low _ Hlt) in Hstep.
  - rewrite split_at_databases in Hrun.
    apply bind_Ok_inv in Hrun as ([] & w1 & Hpre & Hrest).
    apply bind_Ok_inv in Hrest as ([] & w2 & Hstep & _).
    apply checked_before_databases in Hpre. injection Hpre as Hon Hdb.
    intros Hmetrics. rewrite <- Hon in Hmetrics.
    destruct (databases_Ok_engine _ _ Hstep Hmetrics) as [e He].
    exists e. unfold engine_of in *. by rewrite <- Hdb.
  - rewrite split_at_media_storage in Hrun.
    apply bind_Ok_inv in Hrun as ([] & w1 & Hpre & Hrest).
    apply bind_Ok_inv in Hrest as ([] & w2 & Hstep & _).
    apply checked_before_media_storage in Hpre. injection Hpre as Hb Henv.
    intros b Hsome Hsw. rewrite <- Hb in Hsome. rewrite <- Henv.
    destruct (import_storages_utils (import_env w1)) as [[]|e] eqn:Himp; [done | ].
    by rewrite (media_storage_import_fails _ _ _ Hsome Hsw Himp) in Hstep.
  - rewrite split_at_sso in Hrun.
    apply bind_Ok_inv in Hrun as ([] & w1 & Hpre & Hrest).
    apply bind_Ok_inv in Hrest as ([] & w2 & Hstep & _).
    apply checked_before_sso in Hpre. injection Hpre as Hon Hmod.
    intros Hsso. rewrite <- Hon in Hsso. rewrite <- Hmod.
    destruct (get_sso_backend_name (SOCIAL_AUTH_MODULE (settings w1)))
      as [name|e] eqn:Hname; [eauto | ].
    apply (sso_resolver_raises _ _ Hsso) in Hname. by rewrite Hstep in Hname.
Qed.










(** ** Settings that do not need django-storages *)

Local Abbreviation blind := (ignores_imports (PyObj:=PyObj) (FS:=FS)).














End Proofs.

(** * The theorems at concrete settings *)

Section Examples.

Import Demo.

(** C1: the settings object with [RELEASE_CHECK_URL = "not-a-url"] is a
    malformed URL, which a call of the validator rejects; the release-check
    step nevertheless returns normally and so does the whole callback.  A
    well-formed URL passes the step as well. *)
Theorem C1_malformed_url_not_rejected :
  RELEASE_CHECK_URL (settings (world malformed_url true)) = Some "not-a-url" ∧
  (∃ v, URLValidator_init None = Ok v ∧
        URLValidator_call well_formed v "not-a-url" =
        Raise (ValidationError "Enter a valid URL.")) ∧
  release_check_url (world malformed_url true) = (Ok tt, world malformed_url true) ∧
  (run malformed_url true).1 = Ok tt ∧
  release_check_url (world wellformed_url true) = (Ok tt, world wellformed_url true).
Proof.
  split_and!.
  - reflexivity.
  - eexists. split; reflexivity.
  - apply release_check_url_never_raises.
  - by vm_compute.
  - apply release_check_url_never_raises.
Qed.

Lemma C2_witness :
  (PAGINATE_COUNT (settings (world page_size_unlisted true))
     ∉ PER_PAGE_DEFAULTS (settings (world page_size_unlisted true))) ∧
  (∃ w1, pagination (world page_size_unlisted true) = (Ok tt, w1) ∧
         PER_PAGE_DEFAULTS (settings w1) = [25; 50; 75; 100] ∧
         pagination w1 = (Ok tt, w1)) ∧
  PER_PAGE_DEFAULTS (settings (run page_size_unlisted true).2) = [25; 50; 75; 100].
Proof.
  assert (Hout : PAGINATE_COUNT (settings (world page_size_unlisted true))
                   ∉ PER_PAGE_DEFAULTS (settings (world page_size_unlisted true))).
  { apply (bool_decide_unpack _). by vm_compute. }
  destruct (C2_pagination_inserts_and_sorts (world page_size_unlisted true) Hout)
    as (_ & _ & _ & Hstep & Hrun).
  split_and!; [exact Hout | exact Hstep | ].
  apply (Hrun CONFIG_PATH). by vm_compute.
Defined.

Lemma C3_witness :
  (REQUIRED_BACKEND ∉ AUTHENTICATION_BACKENDS (settings (world no_required_backend true))) ∧
  authentication (world no_required_backend true) =
    (Raise (ImproperlyConfigured MSG_BACKEND), world no_required_backend true) ∧
  (run no_required_backend true).1 = Raise (ImproperlyConfigured MSG_BACKEND) ∧
  REQUIRED_BACKEND ∈ AUTHENTICATION_BACKENDS (settings (world defaults true)) ∧
  authentication (world defaults true) = (Ok tt, world defaults true).
Proof.
  assert (Hout : REQUIRED_BACKEND
                   ∉ AUTHENTICATION_BACKENDS (settings (world no_required_backend true))).
  { apply (bool_decide_unpack _). by vm_compute. }
  assert (Hin : REQUIRED_BACKEND ∈ AUTHENTICATION_BACKENDS (settings (world defaults true))).
  { apply (bool_decide_unpack _). by vm_compute. }
  destruct (C3_required_backend (world no_required_backend true)) as [Hmissing _].
  destruct (C3_required_backend (world defaults true)) as [_ Hpresent].
  destruct (Hmissing Hout) as (Hstep & Hrun & _).
  split_and!; [exact Hout | exact Hstep | | exact Hin | exact (Hpresent Hin)].
  unfold run. erewrite (Hrun CONFIG_PATH); [reflexivity | by vm_compute].
Defined.

Lemma C4_witness :
  RELEASE_CHECK_TIMEOUT (settings (world (with_timeout 3599 defaults) true)) < 3600 ∧
  release_check_timeout (world (with_timeout 3599 defaults) true) =
    (Raise (ImproperlyConfigured MSG_TIMEOUT), world (with_timeout 3599 defaults) true) ∧
  (run (with_timeout 3599 defaults) true).1 = Raise (ImproperlyConfigured MSG_TIMEOUT) ∧
  3600 ≤ RELEASE_CHECK_TIMEOUT (settings (world (with_timeout 3600 defaults) true)) ∧
  release_check_timeout (world (with_timeout 3600 defaults) true) =
    (Ok tt, world (with_timeout 3600 defaults) true).
Proof.
  destruct (C4_release_check_timeout_threshold (world (with_timeout 3599 defaults) true))
    as (Hlow & _ & Hrun).
  destruct (C4_release_check_timeout_threshold (world (with_timeout 3600 defaults) true))
    as (_ & Hhigh & _).
  assert (Hlt : RELEASE_CHECK_TIMEOUT (settings (world (with_timeout 3599 defaults) true))
                < 3600) by (simpl; lia).
  assert (Hge : 3600 ≤ RELEASE_CHECK_TIMEOUT
                         (settings (world (with_timeout 3600 defaults) true)))
    by (simpl; lia).
  split_and!; [exact Hlt | exact (proj2 Hlow Hlt) | | exact Hge | exact (proj2 Hhigh Hge)].
  unfold run. erewrite (Hrun CONFIG_PATH); [reflexivity | exact Hlt | by vm_compute].
Defined.

Lemma C5_witness :
  SOCIAL_AUTH_ENABLED (settings (world sso_on true)) = true ∧
  (∃ w1, sso (world sso_on true) = (Ok tt, w1) ∧
         AUTHENTICATION_BACKENDS (settings w1) =
           ["social_core.backends.google.GoogleOAuth2"; REQUIRED_BACKEND] ∧
         INSTALLED_APPS (settings w1) =
           ["django.contrib.auth"; "nautobot.core"; "social_django"] ∧
         LOGIN_URL (settings w1) = "/nautobot/login/google-oauth2/") ∧
  (∃ name, AUTHENTICATION_BACKENDS (settings (run sso_on true).2) =
             ["social_core.backends.google.GoogleOAuth2"; REQUIRED_BACKEND] ∧
           LOGIN_URL (settings (run sso_on true).2) =
             "/" +:+ "nautobot/" +:+ "login/" +:+ name +:+ "/").
Proof.
  assert (Hon : SOCIAL_AUTH_ENABLED (settings (world sso_on true)) = true) by reflexivity.
  destruct (C5_sso_injection (world sso_on true) Hon) as [Hstep Hrun].
  split_and!; [exact Hon | exact (Hstep "google-oauth2" eq_refl) | ].
  destruct (Hrun CONFIG_PATH (run sso_on true).2) as (name & _ & Hauth & Hurl & _).
  { by vm_compute. }
  exists name. split; [exact Hauth | exact Hurl].
Defined.

(** C5 as stated fails: the run returns normally with SSO enabled, yet
    [LOGIN_URL] is not [BASE_PATH], ["login/"], the backend name and a slash,
    because the format string puts a slash in front. *)
Lemma C5_counterexample :
  SOCIAL_AUTH_ENABLED (settings (world sso_on true)) = true ∧
  BASE_PATH (settings (world sso_on true)) = "nautobot/" ∧
  get_sso_backend_name (SOCIAL_AUTH_MODULE (settings (world sso_on true))) =
    Ok "google-oauth2" ∧
  (run sso_on true).1 = Ok tt ∧
  LOGIN_URL (settings (run sso_on true).2) = "/nautobot/login/google-oauth2/" ∧
  LOGIN_URL (settings (run sso_on true).2) ≠
    BASE_PATH (settings (world sso_on true)) +:+ "login/" +:+ "google-oauth2" +:+ "/".
Proof.
  split_and!; [reflexivity | reflexivity | reflexivity | by vm_compute | by vm_compute | ].
  vm_compute. discriminate.
Qed.

Lemma C6_witness :
  METRICS_ENABLED (settings (world metrics_on true)) = true ∧
  engine_of (settings (world metrics_on true)) = Some "django.db.backends.postgresql" ∧
  PyStr.contains "postgres" "django.db.backends.postgresql" = true ∧
  (∃ w1, databases (world metrics_on true) = (Ok tt, w1) ∧
         engine_of (settings w1) = Some PROMETHEUS_ENGINE) ∧
  engine_of (settings (run metrics_on true).2) = Some PROMETHEUS_ENGINE ∧
  METRICS_ENABLED (settings (world defaults true)) = false ∧
  databases (world defaults true) = (Ok tt, world defaults true) ∧
  DATABASES (settings (run defaults true).2) = DATABASES (settings (world defaults true)).
Proof.
  destruct (C6_metrics_engine_swap (world metrics_on true)) as [Hswap _].
  destruct (C6_metrics_engine_swap (world defaults true)) as [_ Hkeep].
  assert (Heng : engine_of (settings (world metrics_on true))
                 = Some "django.db.backends.postgresql") by by vm_compute.
  destruct (Hswap "django.db.backends.postgresql" eq_refl Heng eq_refl) as [Hstep Hrun].
  destruct (Hkeep (or_introl eq_refl)) as [Hnoop Hframe].
  split_and!; [reflexivity | exact Heng | reflexivity | exact Hstep | | reflexivity
              | exact Hnoop | ].
  - apply (Hrun CONFIG_PATH). by vm_compute.
  - apply (Hframe CONFIG_PATH (run defaults true).1). by vm_compute.
Defined.

Lemma C7_witness :
  STORAGE_BACKEND (settings (world s3_backend false)) =
    Some "storages.backends.s3boto3.S3Boto3Storage" ∧
  PyStr.startswith "storages.backends.s3boto3.S3Boto3Storage" "storages." = true ∧
  import_env (world s3_backend false) "storages" = NotFound ∧
  PyStr.contains "pip install django-storages"
    (MSG_STORAGES "storages.backends.s3boto3.S3Boto3Storage") = true ∧
  (∃ w', media_storage (world s3_backend false) =
         (Raise (ImproperlyConfigured
                   (MSG_STORAGES "storages.backends.s3boto3.S3Boto3Storage")), w')) ∧
  (∃ w', run s3_backend false =
         (Raise (ImproperlyConfigured
                   (MSG_STORAGES "storages.backends.s3boto3.S3Boto3Storage")), w')).
Proof.
  destruct (C7_missing_django_storages (world s3_backend false)
              "storages.backends.s3boto3.S3Boto3Storage" eq_refl eq_refl eq_refl)
    as (Hmsg & Hstep & Hrun).
  split_and!; [reflexivity | reflexivity | reflexivity | exact Hmsg | exact Hstep | ].
  apply (Hrun CONFIG_PATH (through_release_timeout CONFIG_PATH (world s3_backend false)).2).
  by vm_compute.
Defined.

Lemma C8_witness :
  STORAGE_CONFIG (settings (world config_without_backend true)) ≠ ∅ ∧
  STORAGE_BACKEND (settings (world config_without_backend true)) = None ∧
  media_storage (world config_without_backend true) =
    (Ok tt, world config_without_backend true) ∧
  storage_config_warning (world config_without_backend true) =
    (Ok tt, with_warning MSG_STORAGE_CONFIG (world config_without_backend true)) ∧
  (run config_without_backend true).1 = Ok tt ∧
  warnings_log (run config_without_backend true).2 = [MSG_STORAGE_CONFIG].
Proof.
  assert (Hcfg : STORAGE_CONFIG (settings (world config_without_backend true)) ≠ ∅).
  { intros Hempty. apply (f_equal (λ m, m !! "AWS_ACCESS_KEY_ID")) in Hempty.
    by vm_compute in Hempty. }
  destruct (C8_storage_config_without_backend (world config_without_backend true)
              Hcfg eq_refl) as (Hmedia & Hwarn & _ & Hrun).
  destruct (Hrun CONFIG_PATH
              (through_release_timeout CONFIG_PATH (world config_without_backend true)).2)
    as [_ Hrest].
  { by vm_compute. }
  split_and!; [exact Hcfg | reflexivity | exact Hmedia | exact Hwarn | | ].
  - unfold run. rewrite Hrest. by vm_compute.
  - unfold run. rewrite Hrest. by vm_compute.
Defined.

Lemma C9_witness :
  PAGINATE_COUNT (settings (world page_size_listed_unsorted true))
    ∈ PER_PAGE_DEFAULTS (settings (world page_size_listed_unsorted true)) ∧
  pagination (world page_size_listed_unsorted true) =
    (Ok tt, world page_size_listed_unsorted true) ∧
  PER_PAGE_DEFAULTS (settings (run page_size_listed_unsorted true).2) = [100; 25; 50].
Proof.
  assert (Hin : PAGINATE_COUNT (settings (world page_size_listed_unsorted true))
                  ∈ PER_PAGE_DEFAULTS (settings (world page_size_listed_unsorted true))).
  { apply (bool_decide_unpack _). by vm_compute. }
  destruct (C9_pagination_present_is_noop (world page_size_listed_unsorted true) Hin)
    as [Hstep Hrun].
  split_and!; [exact Hin | exact Hstep | ].
  apply (Hrun CONFIG_PATH (run page_size_listed_unsorted true).1). by vm_compute.
Defined.

Lemma C10_witness :
  STORAGE_BACKEND (settings (world s3_backend false)) =
    Some "storages.backends.s3boto3.S3Boto3Storage" ∧
  DEFAULT_FILE_STORAGE (settings (world s3_backend false)) =
    "django.core.files.storage.FileSystemStorage" ∧
  (∃ msg w', media_storage (world s3_backend false) =
             (Raise (ImproperlyConfigured msg), w') ∧
             DEFAULT_FILE_STORAGE (settings w') =
             "storages.backends.s3boto3.S3Boto3Storage") ∧
  (∃ w', run s3_backend false =
         (Raise (ImproperlyConfigured
                   (MSG_STORAGES "storages.backends.s3boto3.S3Boto3Storage")), w') ∧
         DEFAULT_FILE_STORAGE (settings w') = "storages.backends.s3boto3.S3Boto3Storage").
Proof.
  destruct (C10_assignment_survives_the_error (world s3_backend false)
              "storages.backends.s3boto3.S3Boto3Storage" eq_refl) as [Hany Hfail].
  destruct (Hfail eq_refl eq_refl) as [Hstep Hrun].
  split_and!; [reflexivity | reflexivity | | ].
  - eexists _, _. split; [exact Hstep | ]. by apply (Hany _ _ Hstep).
  - apply (Hrun CONFIG_PATH
             (through_release_timeout CONFIG_PATH (world s3_backend false)).2).
    by vm_compute.
Defined.

(** ** The further properties at concrete settings *)

Lemma list_OS_laws : OSLaws (list string).
Proof.
  split; simpl; intros p; intros; simplify_eq; apply bool_decide_eq_true.
  - set_solver.
  - match goal with H : bool_decide _ = true |- _ => apply bool_decide_eq_true in H end.
    set_solver.
  - set_solver.
  - match goal with H : bool_decide _ = true |- _ => apply bool_decide_eq_true in H end.
    set_solver.
Qed.

Lemma configure_settings_warns_only_without_backend_witness :
  warnings_log (run config_without_backend true).2 = [MSG_STORAGE_CONFIG] ∧
  STORAGE_BACKEND (settings (world config_without_backend true)) = None.
Proof.
  destruct (configure_settings_warns_only_without_backend CONFIG_PATH
              (world config_without_backend true)) as (_ & Hb & Hlog).
  { by vm_compute. }
  split; [exact Hlog | exact Hb].
Defined.

Lemma configure_settings_lists_page_size_witness :
  PAGINATE_COUNT (settings (run page_size_unlisted true).2)
    ∈ PER_PAGE_DEFAULTS (settings (run page_size_unlisted true).2).
Proof.
  destruct (configure_settings_lists_page_size CONFIG_PATH
              (world page_size_unlisted true) (run page_size_unlisted true).2)
    as [Hin _]; [by vm_compute | exact Hin].
Defined.

Lemma failed_authentication_keeps_pagination_witness :
  ∃ w', run (with_backends [] page_size_unlisted) true =
        (Raise (ImproperlyConfigured MSG_BACKEND), w') ∧
        PER_PAGE_DEFAULTS (settings w') = [25; 50; 75; 100].
Proof.
  apply (failed_authentication_keeps_pagination CONFIG_PATH
           (world (with_backends [] page_size_unlisted) true)
           (through_databases CONFIG_PATH
              (world (with_backends [] page_size_unlisted) true)).2).
  - apply (bool_decide_unpack _). by vm_compute.
  - apply (bool_decide_unpack _). by vm_compute.
  - by vm_compute.
Defined.

Lemma databases_missing_key_witness :
  databases world_without_databases = (Raise (KeyError "default"), world_without_databases) ∧
  (_configure_settings CONFIG_PATH world_without_databases).1 = Raise (KeyError "default").
Proof.
  destruct (databases_missing_key world_without_databases eq_refl eq_refl)
    as [Hstep Hrun].
  split; [exact Hstep | ].
  erewrite (Hrun CONFIG_PATH); [reflexivity | by vm_compute].
Defined.


Lemma media_storage_reraises_witness :
  (media_storage (with_import_env env_without_utils (world s3_backend true))).1 =
  Raise (ModuleNotFoundError "storages.utils").
Proof.
  erewrite (media_storage_reraises
              (with_import_env env_without_utils (world s3_backend true))
              "storages.backends.s3boto3.S3Boto3Storage"
              (ModuleNotFoundError "storages.utils"));
    [reflexivity | reflexivity | reflexivity | reflexivity | discriminate].
Defined.

Lemma monkeypatch_iff_import_succeeded_witness :
  storages_utils_setting (run s3_backend true).2 = NautobotSetting ∧
  storages_utils_setting (run s3_backend false).2 ≠ NautobotSetting.
Proof.
  split.
  - apply (monkeypatch_iff_import_succeeded CONFIG_PATH (world s3_backend true)
             (through_release_timeout CONFIG_PATH (world s3_backend true)).2);
      [by vm_compute | reflexivity | ].
    exists "storages.backends.s3boto3.S3Boto3Storage". by split_and!.
  - intros Hpatched.
    apply (monkeypatch_iff_import_succeeded CONFIG_PATH (world s3_backend false)
             (through_release_timeout CONFIG_PATH (world s3_backend false)).2)
      in Hpatched as (b & _ & _ & Himp); [ | by vm_compute | reflexivity].
    by vm_compute in Himp.
Defined.

Lemma configure_settings_without_sso_witness :
  AUTHENTICATION_BACKENDS (settings (run defaults true).2) = [REQUIRED_BACKEND] ∧
  LOGIN_URL (settings (run defaults true).2) = "/login/" ∧
  INSTALLED_APPS (settings (run defaults true).2) =
    ["django.contrib.auth"; "nautobot.core"; "nautobot_golden_config"].
Proof.
  destruct (configure_settings_without_sso CONFIG_PATH (world defaults true) eq_refl)
    as (Hauth & Hurl & Happs).
  split_and!; [exact Hauth | exact Hurl | ].
  apply Happs. by vm_compute.
Defined.

Lemma sso_backend_inserted_on_every_run_witness :
  AUTHENTICATION_BACKENDS
    (settings (_configure_settings CONFIG_PATH (run sso_on true).2).2) =
  ["social_core.backends.google.GoogleOAuth2";
   "social_core.backends.google.GoogleOAuth2"; REQUIRED_BACKEND].
Proof.
  apply (sso_backend_inserted_on_every_run CONFIG_PATH CONFIG_PATH
           (world sso_on true) (run sso_on true).2);
    [reflexivity | by vm_compute | by vm_compute].
Defined.

Lemma sso_resolver_failure_is_partial_witness :
  ∃ e w', sso (PluginUtils0 := failing_utils) (world sso_on true) = (Raise e, w') ∧
          INSTALLED_APPS (settings w') =
            ["django.contrib.auth"; "nautobot.core"; "social_django"] ∧
          AUTHENTICATION_BACKENDS (settings w') =
            ["social_core.backends.google.GoogleOAuth2"; REQUIRED_BACKEND] ∧
          LOGIN_URL (settings w') = "/login/".
Proof.
  eexists.
  apply (sso_resolver_failure_is_partial (PluginUtils0 := failing_utils)
           (world sso_on true)); reflexivity.
Defined.

Lemma storage_directories_ensures_paths_witness :
  os_path_exists "/opt/nautobot/jobs/__init__.py"
    (fs (storage_directories (world defaults true)).2) = true.
Proof.
  apply (storage_directories_ensures_paths (OSLaws0 := list_OS_laws)
           (world defaults true)).
  - by vm_compute.
  - apply (bool_decide_unpack _). by vm_compute.
Defined.

Lemma storage_directories_idempotent_witness :
  storage_directories (storage_directories (world defaults true)).2 =
  (Ok tt, (storage_directories (world defaults true)).2).
Proof.
  apply (storage_directories_idempotent (OSLaws0 := list_OS_laws) (world defaults true)).
  by vm_compute.
Defined.

Lemma configure_settings_creates_directories_once_witness :
  fs (_configure_settings CONFIG_PATH (run defaults true).2).2 = fs (run defaults true).2.
Proof.
  apply (configure_settings_creates_directories_once (OSLaws0 := list_OS_laws)
           CONFIG_PATH CONFIG_PATH (world defaults true)).
  by vm_compute.
Defined.

Lemma configure_settings_Ok_certifies_witness :
  3600 ≤ RELEASE_CHECK_TIMEOUT (settings (world sso_on true)) ∧
  ∃ name, get_sso_backend_name (SOCIAL_AUTH_MODULE (settings (world sso_on true)))
          = Ok name.
Proof.
  destruct (configure_settings_Ok_certifies CONFIG_PATH (world sso_on true)
              (run sso_on true).2) as (_ & Htime & _ & _ & Hsso).
  { by vm_compute. }
  split; [exact Htime | exact (Hsso eq_refl)].
Defined.



End Examples.
